(** * flashlight: certificate lifecycle and proxy front ends

    A shallow embedding of the parts of flashlight's [package main]
    (certificate initialisation, the client and server reverse proxies, the
    response-rewriting round tripper) and of [proxy/client.go]
    ([Client.ServeHTTP]), with the properties of these functions that the
    design document states.

    Conventions.
    - Go's [(value, err)] results are pairs whose second component is an
      [option error]; [None] is Go's [nil] error.
    - A Go pointer that may be [nil] is an [option]; dereferencing [nil]
      panics, which the state monad [M] records as [Panicked].
    - Calls that leave the program (the clock, the file system, the trust
      store, DNS, the key generator) read their result from an [Env]; their
      visible effects are recorded in the state. *)

From Stdlib Require Import ZArith Lia List Ascii.
From stdpp Require Import base gmap strings list fin_maps.
Import ListNotations.

Local Open Scope Z_scope.

(** ** Go's [strings] package *)

Module GoStrings.

(** [strings.Split(s, sep)] for a separator of one byte: the pieces of [s]
    between the occurrences of [sep]; never empty. *)
Fixpoint Split (s : string) (sep : ascii) : list string :=
  match s with
  | EmptyString => [EmptyString]
  | String c rest =>
      if Ascii.eqb c sep then EmptyString :: Split rest sep
      else match Split rest sep with
           | piece :: pieces => String c piece :: pieces
           | [] => [String c EmptyString]
           end
  end.

(** [strings.Contains(s, sep)] for a separator of one byte. *)
Fixpoint Contains (s : string) (sep : ascii) : bool :=
  match s with
  | EmptyString => false
  | String c rest => Ascii.eqb c sep || Contains rest sep
  end.

(** [pieces[0]]; an index out of range panics. *)
Definition first (pieces : list string) : option string := head pieces.

(** [pieces[len(pieces)-1]]; an index out of range panics. *)
Definition final (pieces : list string) : option string := last pieces.

End GoStrings.

(** ** Go's [time] package

    A [Time] is an instant, in nanoseconds since the Unix epoch.  Calendar
    arithmetic is done in UTC. *)

Module GoTime.

Definition Time := Z.

Definition nsPerSecond : Z := 1000000000.
Definition nsPerDay : Z := 86400 * nsPerSecond.

(** [t.Nanosecond()]: the nanosecond offset within the second, in
    [0, 999999999]. *)
Definition Nanosecond (t : Time) : Z := t mod nsPerSecond.

(** [t.Before(u)] *)
Definition Before (t u : Time) : bool := t <? u.

(** Days since the epoch of day [d] of month [m] (1..12) of year [y] in the
    proleptic Gregorian calendar; a day beyond the end of the month counts
    on into the following months. *)
Definition daysFromCivil (y m d : Z) : Z :=
  let y' := if m <=? 2 then y - 1 else y in
  let era := y' / 400 in
  let yoe := y' - era * 400 in
  let mp := (m + 9) mod 12 in
  let doy := (153 * mp + 2) / 5 + d - 1 in
  let doe := yoe * 365 + yoe / 4 - yoe / 100 + doy in
  era * 146097 + doe - 719468.

(** The inverse: year, month and day of a day number. *)
Definition civilFromDays (z : Z) : Z * Z * Z :=
  let z' := z + 719468 in
  let era := z' / 146097 in
  let doe := z' - era * 146097 in
  let yoe := (doe - doe / 1460 + doe / 36524 - doe / 146096) / 365 in
  let doy := doe - (365 * yoe + yoe / 4 - yoe / 100) in
  let mp := (5 * doy + 2) / 153 in
  let d := doy - (153 * mp + 2) / 5 + 1 in
  let m := if mp <? 10 then mp + 3 else mp - 9 in
  let y := yoe + era * 400 in
  (if m <=? 2 then y + 1 else y, m, d).

(** [time.Date(year, month, day, ...)] normalises a month outside 1..12
    into the year and a day outside the month into the following months;
    the clock part is carried over unchanged. *)
Definition Date (year month day : Z) (clockNs : Z) : Time :=
  let m0 := month - 1 in
  let year' := year + m0 / 12 in
  let month' := m0 mod 12 + 1 in
  (daysFromCivil year' month' 1 + (day - 1)) * nsPerDay + clockNs.

(** [t.AddDate(years, months, days)] *)
Definition AddDate (t : Time) (years months days : Z) : Time :=
  let '(year, month, day) := civilFromDays (t / nsPerDay) in
  Date (year + years) (month + months) (day + days) (t mod nsPerDay).

End GoTime.

(** ** Errors and [os.IsNotExist] *)

Inductive error : Type :=
| PathNotExist (path : string)          (* an os.PathError carrying ENOENT *)
| ExternalError (msg : string)          (* any other error of a library *)
| Errorf (msg : string) (arg : error)    (* fmt.Errorf(msg + ": %s", arg) *)
| ErrorfNil (msg : string).             (* the same with a nil argument *)

(** [os.IsNotExist(err)]; false on a [nil] error. *)
Definition IsNotExist (err : option error) : bool :=
  match err with
  | Some (PathNotExist _) => true
  | _ => false
  end.

(** ** [crypto/x509] and the [keyman] library *)

Module X509.

(** [x509.KeyUsage] bits. *)
Definition KeyUsageDigitalSignature : Z := Z.shiftl 1 0.
Definition KeyUsageContentCommitment : Z := Z.shiftl 1 1.
Definition KeyUsageKeyEncipherment : Z := Z.shiftl 1 2.
Definition KeyUsageDataEncipherment : Z := Z.shiftl 1 3.
Definition KeyUsageKeyAgreement : Z := Z.shiftl 1 4.
Definition KeyUsageCertSign : Z := Z.shiftl 1 5.
Definition KeyUsageCRLSign : Z := Z.shiftl 1 6.

Inductive ExtKeyUsage := ExtKeyUsageAny | ExtKeyUsageServerAuth | ExtKeyUsageClientAuth.

(** The fields of [x509.Certificate] that flashlight sets. *)
Record Certificate := {
  SerialNumber : Z;
  Organization : list string;
  CommonName : string;
  NotBefore : GoTime.Time;
  NotAfter : GoTime.Time;
  BasicConstraintsValid : bool;
  KeyUsage : Z;
  ExtKeyUsages : list ExtKeyUsage;
  IsCA : bool
}.

(** [usage] includes every bit of [bit]. *)
Definition hasKeyUsage (usage bit : Z) : bool := Z.land usage bit =? bit.

End X509.

Module Keyman.

(** [keyman.PrivateKey]: an RSA key of [Bits] bits; [Material] stands for
    the random key material. *)
Record PrivateKey := { Bits : Z; Material : Z }.

(** [keyman.Certificate]: the signed template, the common name of the
    issuer and the key that signed it. *)
Record Certificate := {
  X509 : X509.Certificate;
  IssuerName : string;
  SelfSigned : bool;
  SignedWith : PrivateKey
}.

End Keyman.

(** ** Go's [net] and [net/http] packages *)

Module Net.

(** [net.IP]: a slice of bytes, four for IPv4 and sixteen for IPv6. *)
Definition IP := list Z.

Record IPAddr := { IPAddr_IP : IP; Zone : string }.

Definition IPv6loopback : IP := [0; 0; 0; 0; 0; 0; 0; 0; 0; 0; 0; 0; 0; 0; 0; 1].

Definition v4InV6Prefix : list Z := [0; 0; 0; 0; 0; 0; 0; 0; 0; 0; 255; 255].

(** [ip.To4()]: the four-byte form of an IPv4 address, [nil] otherwise. *)
Definition To4 (ip : IP) : option IP :=
  if bool_decide (length ip = 4%nat) then Some ip
  else if bool_decide (length ip = 16%nat) && bool_decide (take 12 ip = v4InV6Prefix)
       then Some (drop 12 ip)
       else None.

(** [ip.IsLoopback()] *)
Definition IsLoopback (ip : IP) : bool :=
  match To4 ip with
  | Some ip4 => bool_decide (ip4 !! 0%nat = Some 127)
  | None => bool_decide (ip = IPv6loopback)
  end.

End Net.

Module Http.

(** [http.Header]: a map from canonical keys to their values. *)
Abbreviation Header := (gmap string (list string)).

Definition isLower (c : ascii) : bool :=
  let n := N_of_ascii c in ((97 <=? n) && (n <=? 122))%N.
Definition isUpper (c : ascii) : bool :=
  let n := N_of_ascii c in ((65 <=? n) && (n <=? 90))%N.
Definition toUpper (c : ascii) : ascii :=
  if isLower c then ascii_of_N (N_of_ascii c - 32) else c.
Definition toLower (c : ascii) : ascii :=
  if isUpper c then ascii_of_N (N_of_ascii c + 32) else c.

(** The loop of [textproto.CanonicalMIMEHeaderKey]: upper case for the
    first letter and after each dash, lower case elsewhere. *)
Fixpoint canonical (upper : bool) (key : string) : string :=
  match key with
  | EmptyString => EmptyString
  | String c rest =>
      let c' := if Ascii.eqb c " " then "-"%char
                else if upper then toUpper c else toLower c in
      String c' (canonical (Ascii.eqb c' "-") rest)
  end.

Definition CanonicalMIMEHeaderKey (key : string) : string := canonical true key.

(** [h.Get(key)]: the first value of the key, [""] without one. *)
Definition Header_Get (h : Header) (key : string) : string :=
  match h !! CanonicalMIMEHeaderKey key with
  | Some (v :: _) => v
  | _ => ""
  end.

(** [h.Set(key, value)] *)
Definition Header_Set (h : Header) (key value : string) : Header :=
  <[CanonicalMIMEHeaderKey key := [value]]> h.

(** The destination of a request: [req.URL]. *)
Record URL := { Scheme : string; URL_Host : string; Path : string; RawQuery : string }.

Record Request := {
  Method : string;
  Request_URL : URL;
  Request_Header : Header;
  Host : string;
  RemoteAddr : string;
  RequestURI : string
}.

Record Response := {
  StatusCode : Z;
  Response_Header : Header;
  Body : list Byte.byte
}.

(** An [http.ResponseWriter]: the header map, and what has been sent. *)
Record ResponseWriter := {
  Writer_Header : Header;
  wroteHeader : bool;
  status : Z;
  sentHeader : Header;
  written : list Byte.byte
}.

(** [w.Header().Set(key, value)] *)
Definition Writer_Header_Set (w : ResponseWriter) (key value : string) : ResponseWriter :=
  {| Writer_Header := Header_Set (Writer_Header w) key value;
     wroteHeader := wroteHeader w; status := status w;
     sentHeader := sentHeader w; written := written w |}.

(** [w.WriteHeader(code)]: sends the status and the header map as it is;
    a second call has no effect. *)
Definition WriteHeader (w : ResponseWriter) (code : Z) : ResponseWriter :=
  if wroteHeader w then w
  else {| Writer_Header := Writer_Header w; wroteHeader := true; status := code;
          sentHeader := Writer_Header w; written := written w |}.

(** [w.Write(data)]: sends status 200 first if none was sent. *)
Definition Write (w : ResponseWriter) (data : list Byte.byte) : ResponseWriter :=
  let w := WriteHeader w 200 in
  {| Writer_Header := Writer_Header w; wroteHeader := wroteHeader w;
     status := status w; sentHeader := sentHeader w;
     written := written w ++ data |}.

End Http.

(** ** [package main] *)

Module Flashlight.

Import GoTime.

Definition CONNECT : string := "CONNECT".
Definition X_LANTERN_REQUEST_INFO : string := "X-Lantern-Request-Info".
Definition X_LANTERN_PUBLIC_IP : string := "X-LANTERN-PUBLIC-IP".
Definition FLASHLIGHT_CN_PREFIX : string := "flashlight-".

(** The command-line flags. *)
Record Flags := {
  addr : string;
  upstreamHost : string;
  configDir : string;
  instanceId : string;
  dumpheaders : bool;
  install : bool
}.

(** What a file of the configuration directory holds. *)
Inductive FileContent :=
| PrivateKeyPEM (key : Keyman.PrivateKey)
| CertificatePEM (cert : Keyman.Certificate)
| Unreadable (why : string).

(** The two ends of the chain. *)
Inductive Side := ClientSide | ServerSide.

(** A masquerade protocol (the [cloudflare] package): how it rewrites
    requests and responses, both in place. *)
Record Protocol := {
  RewriteRequest : Http.Request -> Http.Request;
  RewriteResponse : Http.Response -> Http.Response
}.

(** Results of the calls that leave the program. *)
Record Env := {
  flags : Flags;
  clientProtocol : Protocol;
  serverProtocol : Protocol;
  (* net.ResolveIPAddr(network, host) *)
  resolveIPAddr : string -> string -> option Net.IPAddr * option error;
  (* RoundTrip of the http.Transport of a side: dial and exchange *)
  transportRoundTrip : Side -> Http.Request -> option Http.Response * option error;
  timeNow : nat -> Time;              (* the n-th reading of time.Now() *)
  uuidNew : string;                   (* uuid.New() *)
  keyMaterial : Z;                    (* randomness of keyman.GeneratePK *)
  generateErr : option error;         (* failure of keyman.GeneratePK *)
  writeErr : string -> option error;  (* failure of WriteToFile, per path *)
  signErr : option error;             (* failure of PrivateKey.Certificate *)
  isInstalledErr : option error;      (* failure of Certificate.IsInstalled *)
  addAsTrustedRootErr : option error  (* failure of Certificate.AddAsTrustedRoot *)
}.

(** Calls into the log, the trust store, the protocols and the network,
    in the order they happen. *)
Inductive Event :=
| Printf (msg : string)
| DumpHeaders (category : string) (headers : Http.Header)
| CallIsInstalled (cert : Keyman.Certificate)
| CallAddAsTrustedRoot (cert : Keyman.Certificate)
| CallRewriteRequest (side : Side) (req : Http.Request)
| CallRewriteResponse (resp : option Http.Response)
| CallTransport (side : Side) (req : Http.Request).

(** The package variables [pk], [caCert], [serverCert] and the world
    around the process. *)
Record State := {
  files : gmap string FileContent;
  trustStore : list Keyman.Certificate;
  ticks : nat;
  trace : list Event;
  pk : option Keyman.PrivateKey;
  caCert : option Keyman.Certificate;
  serverCert : option Keyman.Certificate
}.

(** A run returns a value or panics; either way it leaves a state. *)
Inductive Outcome (A : Type) :=
| Returned (a : A) (s : State)
| Panicked (s : State).
Arguments Returned {A} a s.
Arguments Panicked {A} s.

Definition stateOf {A} (o : Outcome A) : State :=
  match o with
  | Returned _ s => s
  | Panicked s => s
  end.

Definition M (A : Type) : Type := State -> Outcome A.

#[export] Instance M_ret : MRet M := fun A a s => Returned a s.
#[export] Instance M_bind : MBind M := fun A B f m s =>
  match m s with
  | Returned a s' => f a s'
  | Panicked s' => Panicked s'
  end.

Definition panic {A} : M A := fun s => Panicked s.

Definition get {A} (proj : State -> A) : M A := fun s => Returned (proj s) s.

Definition setFiles (v : gmap string FileContent) : M unit := fun s =>
  Returned tt {| files := v; trustStore := trustStore s; ticks := ticks s;
                 trace := trace s; pk := pk s; caCert := caCert s;
                 serverCert := serverCert s |}.
Definition setTrustStore (v : list Keyman.Certificate) : M unit := fun s =>
  Returned tt {| files := files s; trustStore := v; ticks := ticks s;
                 trace := trace s; pk := pk s; caCert := caCert s;
                 serverCert := serverCert s |}.
Definition setTicks (v : nat) : M unit := fun s =>
  Returned tt {| files := files s; trustStore := trustStore s; ticks := v;
                 trace := trace s; pk := pk s; caCert := caCert s;
                 serverCert := serverCert s |}.
Definition emit (e : Event) : M unit := fun s =>
  Returned tt {| files := files s; trustStore := trustStore s; ticks := ticks s;
                 trace := trace s ++ [e]; pk := pk s; caCert := caCert s;
                 serverCert := serverCert s |}.
Definition setPk (v : option Keyman.PrivateKey) : M unit := fun s =>
  Returned tt {| files := files s; trustStore := trustStore s; ticks := ticks s;
                 trace := trace s; pk := v; caCert := caCert s;
                 serverCert := serverCert s |}.
Definition setCaCert (v : option Keyman.Certificate) : M unit := fun s =>
  Returned tt {| files := files s; trustStore := trustStore s; ticks := ticks s;
                 trace := trace s; pk := pk s; caCert := v;
                 serverCert := serverCert s |}.
Definition setServerCert (v : option Keyman.Certificate) : M unit := fun s =>
  Returned tt {| files := files s; trustStore := trustStore s; ticks := ticks s;
                 trace := trace s; pk := pk s; caCert := caCert s;
                 serverCert := v |}.

(** Dereference of a pointer: [nil] panics. *)
Definition deref {A} (p : option A) : M A :=
  match p with
  | Some a => mret a
  | None => panic
  end.

Section Program.

Variable env : Env.

(** [time.Now()] *)
Definition Now : M Time :=
  n ← get ticks; _ ← setTicks (S n); mret (timeNow env n).

(** [log.Printf] *)
Definition logPrintf (msg : string) : M unit := emit (Printf msg).

(** *** Package variables *)

(** Points in time, each from its own reading of the clock while the
    package is initialised. *)
Definition TOMORROW : Time := AddDate (timeNow env 0) 0 0 1.
Definition ONE_MONTH_FROM_TODAY : Time := AddDate (timeNow env 1) 0 1 0.
Definition ONE_YEAR_FROM_TODAY : Time := AddDate (timeNow env 2) 1 0 0.
Definition TEN_YEARS_FROM_TODAY : Time := AddDate (timeNow env 3) 10 0 0.

Definition shouldReportStats : bool := bool_decide (instanceId (flags env) ≠ "").
Definition isDownstream : bool := bool_decide (upstreamHost (flags env) ≠ "").
Definition isUpstream : bool := negb isDownstream.

(** [inConfigDir]: the path of [filename] in the configuration
    directory. *)
Definition inConfigDir (filename : string) : string :=
  if bool_decide (configDir (flags env) = "") then filename
  else configDir (flags env) +:+ "/" +:+ filename.

Definition PK_FILE : string := inConfigDir "proxypk.pem".
Definition CA_CERT_FILE : string := inConfigDir "cacert.pem".
Definition SERVER_CERT_FILE : string := inConfigDir "servercert.pem".

(** The state in which [main] starts: nothing loaded, four readings of
    the clock taken. *)
Definition initialState (fs : gmap string FileContent)
    (store : list Keyman.Certificate) : State :=
  {| files := fs; trustStore := store; ticks := 4; trace := [];
     pk := None; caCert := None; serverCert := None |}.

(** *** The [keyman] library, over the state *)

(** [keyman.LoadPKFromFile] *)
Definition LoadPKFromFile (filename : string)
    : M (option Keyman.PrivateKey * option error) :=
  fs ← get files;
  mret (match fs !! filename with
        | None => (None, Some (PathNotExist filename))
        | Some (PrivateKeyPEM key) => (Some key, None)
        | Some (CertificatePEM _) =>
            (None, Some (ExternalError "Unable to decode PEM encoded private key data"))
        | Some (Unreadable why) => (None, Some (ExternalError why))
        end).

(** [keyman.LoadCertificateFromFile] *)
Definition LoadCertificateFromFile (filename : string)
    : M (option Keyman.Certificate * option error) :=
  fs ← get files;
  mret (match fs !! filename with
        | None => (None, Some (PathNotExist filename))
        | Some (CertificatePEM cert) => (Some cert, None)
        | Some (PrivateKeyPEM _) =>
            (None, Some (ExternalError "Unable to decode PEM encoded certificate data"))
        | Some (Unreadable why) => (None, Some (ExternalError why))
        end).

(** [keyman.GeneratePK(bits)] *)
Definition GeneratePK (bits : Z) : M (option Keyman.PrivateKey * option error) :=
  mret (match generateErr env with
        | Some e => (None, Some e)
        | None => (Some {| Keyman.Bits := bits; Keyman.Material := keyMaterial env |}, None)
        end).

Definition writeToFile (filename : string) (content : FileContent) : M (option error) :=
  match writeErr env filename with
  | Some e => mret (Some e)
  | None => fs ← get files; _ ← setFiles (<[filename := content]> fs); mret None
  end.

(** [WriteToFile] of a [*keyman.PrivateKey] *)
Definition PrivateKey_WriteToFile (key : Keyman.PrivateKey) (filename : string)
    : M (option error) :=
  writeToFile filename (PrivateKeyPEM key).

(** [WriteToFile] of a [*keyman.Certificate] *)
Definition Certificate_WriteToFile (cert : Keyman.Certificate) (filename : string)
    : M (option error) :=
  writeToFile filename (CertificatePEM cert).

(** [Certificate(template, issuer)] of a [*keyman.PrivateKey]: the template
    signed with the key, under the issuer's name or, without an issuer,
    under its own. *)
Definition PrivateKey_Certificate (key : Keyman.PrivateKey)
    (template : X509.Certificate) (issuer : option Keyman.Certificate)
    : M (option Keyman.Certificate * option error) :=
  mret (match signErr env with
        | Some e => (None, Some e)
        | None =>
            (Some {| Keyman.X509 := template;
                     Keyman.IssuerName :=
                       match issuer with
                       | Some i => X509.CommonName (Keyman.X509 i)
                       | None => X509.CommonName template
                       end;
                     Keyman.SelfSigned :=
                       match issuer with Some _ => false | None => true end;
                     Keyman.SignedWith := key |}, None)
        end).

Definition sameCommonName (a b : Keyman.Certificate) : bool :=
  bool_decide (X509.CommonName (Keyman.X509 a) = X509.CommonName (Keyman.X509 b)).

(** [IsInstalled] of a [*keyman.Certificate]: is a certificate with the same
    common name in the trust store? *)
Definition Certificate_IsInstalled (cert : Keyman.Certificate)
    : M (bool * option error) :=
  _ ← emit (CallIsInstalled cert);
  match isInstalledErr env with
  | Some e => mret (false, Some e)
  | None => store ← get trustStore; mret (existsb (sameCommonName cert) store, None)
  end.

(** [AddAsTrustedRoot] of a [*keyman.Certificate] *)
Definition Certificate_AddAsTrustedRoot (cert : Keyman.Certificate)
    : M (option error) :=
  _ ← emit (CallAddAsTrustedRoot cert);
  match addAsTrustedRootErr env with
  | Some e => mret (Some e)
  | None => store ← get trustStore; _ ← setTrustStore (store ++ [cert]); mret None
  end.

(** *** Certificates *)

(** [certificateFor] generates a certificate for a given name, signed by
    the given issuer; without an issuer it is self-signed. *)
Definition certificateFor (name : string) (validUntil : Time) (isCA : bool)
    (issuer : option Keyman.Certificate)
    : M (option Keyman.Certificate * option error) :=
  serialNow ← Now;
  notBeforeNow ← Now;
  let usage := Z.lor X509.KeyUsageKeyEncipherment X509.KeyUsageDigitalSignature in
  let template :=
    match issuer with
    | None =>
        {| X509.SerialNumber := Nanosecond serialNow;
           X509.Organization := ["Lantern"];
           X509.CommonName := name;
           X509.NotBefore := AddDate notBeforeNow 0 (-1) 0;
           X509.NotAfter := validUntil;
           X509.BasicConstraintsValid := true;
           X509.KeyUsage :=
             if isCA then Z.lor usage X509.KeyUsageCertSign else usage;
           X509.ExtKeyUsages := [X509.ExtKeyUsageServerAuth];
           X509.IsCA := true |}
    | Some _ =>
        {| X509.SerialNumber := Nanosecond serialNow;
           X509.Organization := ["Lantern"];
           X509.CommonName := name;
           X509.NotBefore := AddDate notBeforeNow 0 (-1) 0;
           X509.NotAfter := validUntil;
           X509.BasicConstraintsValid := true;
           X509.KeyUsage := usage;
           X509.ExtKeyUsages := [];
           X509.IsCA := false |}
    end in
  key ← get pk ≫= deref;
  PrivateKey_Certificate key template issuer.

(** [installCACertToTrustStoreIfNecessary] installs the CA certificate
    to the system trust store if it hasn't already been installed. *)
Definition installCACertToTrustStoreIfNecessary : M (option error) :=
  let needInstalledCert := isDownstream || install (flags env) in
  '(haveInstalledCert, err) ←
    (if needInstalledCert
     then cert ← get caCert ≫= deref; Certificate_IsInstalled cert
     else mret (false, None));
  match needInstalledCert, err with
  | true, Some e =>
      mret (Some (Errorf "Unable to check if certificate is installed" e))
  | _, _ =>
      if needInstalledCert && negb haveInstalledCert then
        _ ← logPrintf "Adding issuing cert to trust store as trusted root";
        cert ← get caCert ≫= deref;
        Certificate_AddAsTrustedRoot cert
      else
        _ ← logPrintf "Issuing cert already found in trust store, not adding";
        mret err
  end.

(** Lines 375-379 of [initCommonCerts]: install the certificate; a
    failure is logged and [nil] is returned. *)
Definition initCommonCerts_install : M (option error) :=
  err ← installCACertToTrustStoreIfNecessary;
  _ ← (match err with
       | Some _ =>
           logPrintf "Unable to install CA Cert to trust store, man in the middling may not work.  Suggest running flashlight as sudo with the -install flag"
       | None => mret tt
       end);
  mret None.

(** Lines 360-373 of [initCommonCerts]: load the CA certificate or
    create it. *)
Definition initCommonCerts_caCert : M (option error) :=
  '(cert, err) ← LoadCertificateFromFile CA_CERT_FILE;
  _ ← setCaCert cert;
  expiring ←
    (match err with
     | Some _ => mret true
     | None =>
         c ← deref cert;
         mret (Before (X509.NotAfter (Keyman.X509 c)) ONE_MONTH_FROM_TODAY)
     end);
  if (expiring : bool) then
    if IsNotExist err then
      _ ← logPrintf ("Creating new self-signed CA cert at: " +:+ CA_CERT_FILE);
      '(cert, err) ←
        certificateFor (FLASHLIGHT_CN_PREFIX +:+ uuidNew env)
                       TEN_YEARS_FROM_TODAY true None;
      _ ← setCaCert cert;
      match err with
      | Some _ => mret err
      | None =>
          c ← deref cert;
          err ← Certificate_WriteToFile c CA_CERT_FILE;
          match err with
          | Some _ => mret err
          | None => initCommonCerts_install
          end
      end
    else
      mret (Some (match err with
                  | Some e => Errorf "Unable to read CA cert, even though it exists" e
                  | None => ErrorfNil "Unable to read CA cert, even though it exists"
                  end))
  else initCommonCerts_install.

(** [initCommonCerts] initializes a private key and CA certificate.  The
    key and certificate are generated if not already present. *)
Definition initCommonCerts : M (option error) :=
  '(key, err) ← LoadPKFromFile PK_FILE;
  _ ← setPk key;
  match err with
  | Some e =>
      if IsNotExist err then
        _ ← logPrintf ("Creating new PK at: " +:+ PK_FILE);
        '(key, err) ← GeneratePK 2048;
        _ ← setPk key;
        match err with
        | Some _ => mret err
        | None =>
            k ← deref key;
            err ← PrivateKey_WriteToFile k PK_FILE;
            match err with
            | Some _ => mret err
            | None => initCommonCerts_caCert
            end
        end
      else
        mret (Some (Errorf "Unable to read private key, even though it exists" e))
  | None => initCommonCerts_caCert
  end.

(** [initServerCert] initializes a certificate for use by a server
    proxy, signed by the CA certificate. *)
Definition initServerCert (host : string) : M (option error) :=
  '(cert, err) ← LoadCertificateFromFile SERVER_CERT_FILE;
  _ ← setServerCert cert;
  expiring ←
    (match err with
     | Some _ => mret true
     | None =>
         ca ← get caCert ≫= deref;
         mret (Before (X509.NotAfter (Keyman.X509 ca)) ONE_MONTH_FROM_TODAY)
     end);
  if (expiring : bool) then
    if match err with None => true | Some _ => IsNotExist err end then
      _ ← logPrintf ("Creating new server cert at: " +:+ SERVER_CERT_FILE);
      ca ← get caCert;
      '(cert, err) ← certificateFor host ONE_YEAR_FROM_TODAY true ca;
      _ ← setServerCert cert;
      match err with
      | Some _ => mret err
      | None =>
          c ← deref cert;
          err ← Certificate_WriteToFile c SERVER_CERT_FILE;
          match err with
          | Some _ => mret err
          | None => mret None
          end
      end
    else
      mret (Some (match err with
                  | Some e => Errorf "Unable to read server cert, even though it exists" e
                  | None => ErrorfNil "Unable to read server cert, even though it exists"
                  end))
  else mret None.


(** *** The proxies *)

(** [dumpHeaders] logs the given headers if the dumpheaders flag is
    set. *)
Definition dumpHeaders (category : string) (headers : Http.Header) : M unit :=
  if dumpheaders (flags env) then emit (DumpHeaders category headers) else mret tt.

(** [http.RoundTripper] *)
Definition RoundTripper : Type :=
  Http.Request -> M (option Http.Response * option error).

(** [wrappedRoundTripper] wraps another round tripper to rewrite
    responses prior to returning them. *)
Record wrappedRoundTripper := {
  rewrite : Http.Response -> Http.Response;
  orig : RoundTripper
}.

Definition withRewrite (rw : Http.Response -> Http.Response) (rt : RoundTripper)
    : wrappedRoundTripper :=
  {| rewrite := rw; orig := rt |}.

(** [RoundTrip] of a [wrappedRoundTripper].  A [nil] response with a
    [nil] error is passed to the rewrite and panics, there or at
    [resp.Header]. *)
Definition wrappedRoundTripper_RoundTrip (rt : wrappedRoundTripper) : RoundTripper :=
  fun req =>
    '(resp, err) ← orig rt req;
    match err with
    | None =>
        _ ← emit (CallRewriteResponse resp);
        r ← deref resp;
        let r := rewrite rt r in
        _ ← dumpHeaders "Response" (Http.Response_Header r);
        mret (Some r, err)
    | Some _ => mret (resp, err)
    end.

(** The [http.Transport] of a side. *)
Definition httpTransport (side : Side) : RoundTripper :=
  fun req => _ ← emit (CallTransport side req); mret (transportRoundTrip env side req).

(** [httputil.ReverseProxy]: the director changes a copy of the request,
    the transport sends it, and the response (or status 500 after an
    error) is copied to the writer. *)
Record ReverseProxy := {
  Director : Http.Request -> M Http.Request;
  Transport : RoundTripper
}.

Definition copyHeader (dst src : Http.Header) : Http.Header := src ∪ dst.

Definition ReverseProxy_ServeHTTP (p : ReverseProxy) (rw : Http.ResponseWriter)
    (req : Http.Request) : M Http.ResponseWriter :=
  outreq ← Director p req;
  '(res, err) ← Transport p outreq;
  match err with
  | Some _ =>
      _ ← logPrintf "http: proxy error";
      mret (Http.WriteHeader rw 500)
  | None =>
      r ← deref res;
      let rw := {| Http.Writer_Header :=
                     copyHeader (Http.Writer_Header rw) (Http.Response_Header r);
                   Http.wroteHeader := Http.wroteHeader rw;
                   Http.status := Http.status rw;
                   Http.sentHeader := Http.sentHeader rw;
                   Http.written := Http.written rw |} in
      let rw := Http.WriteHeader rw (Http.StatusCode r) in
      mret (match Http.Body r with
            | [] => rw
            | _ => Http.Write rw (Http.Body r)
            end)
  end.

(** The director of [clientProxy]: local addresses are not rewritten. *)
Definition clientProxy_Director (req : Http.Request) : M Http.Request :=
  host ← deref (GoStrings.first (GoStrings.Split (Http.Host req) ":"));
  let '(ip, err) := resolveIPAddr env "ip4" host in
  remote ←
    (match err with
     | None => a ← deref ip; mret (negb (Net.IsLoopback (Net.IPAddr_IP a)))
     | Some _ => mret false
     end);
  req ←
    (if (remote : bool)
     then _ ← emit (CallRewriteRequest ClientSide req);
          mret (RewriteRequest (clientProtocol env) req)
     else mret req);
  _ ← dumpHeaders "Request" (Http.Request_Header req);
  mret req.

(** Proxy used on the client (MITM) side. *)
Definition clientProxy : ReverseProxy :=
  {| Director := clientProxy_Director;
     Transport :=
       wrappedRoundTripper_RoundTrip
         (withRewrite (RewriteResponse (clientProtocol env)) (httpTransport ClientSide)) |}.

(** The director of [serverProxy]. *)
Definition serverProxy_Director (req : Http.Request) : M Http.Request :=
  _ ← emit (CallRewriteRequest ServerSide req);
  let req := RewriteRequest (serverProtocol env) req in
  _ ← logPrintf ("Handling request for: " +:+ Http.URL_Host (Http.Request_URL req));
  _ ← dumpHeaders "Request" (Http.Request_Header req);
  mret req.

(** Proxy used on the server side. *)
Definition serverProxy : ReverseProxy :=
  {| Director := serverProxy_Director;
     Transport :=
       wrappedRoundTripper_RoundTrip
         (withRewrite (RewriteResponse (serverProtocol env)) (httpTransport ServerSide)) |}.

(** [handleInfoRequest] looks up info about the client (right now just
    ip address) and returns it to the client. *)
Definition handleInfoRequest (resp : Http.ResponseWriter) (req : Http.Request)
    : M Http.ResponseWriter :=
  let clientIp := Http.Header_Get (Http.Request_Header req) "X-Forwarded-For" in
  clientIp ←
    (if bool_decide (clientIp = "")
     then deref (GoStrings.first (GoStrings.Split (Http.RemoteAddr req) ":"))
     else
       (* X-Forwarded-For may contain multiple ips, use the last *)
       let ips := GoStrings.Split clientIp "," in
       deref (GoStrings.final ips));
  let resp := Http.Writer_Header_Set resp X_LANTERN_PUBLIC_IP clientIp in
  mret (Http.WriteHeader resp 200).

(** [handleServer] handles requests to the server-side (upstream)
    proxy. *)
Definition handleServer (resp : Http.ResponseWriter) (req : Http.Request)
    : M Http.ResponseWriter :=
  if bool_decide (Http.Header_Get (Http.Request_Header req) X_LANTERN_REQUEST_INFO ≠ "")
  then handleInfoRequest resp req
  else
    (* Proxy as usual *)
    ReverseProxy_ServeHTTP serverProxy resp req.

(** [hostIncludingPort]: the host of the request, with port 443 when it
    names none. *)
Definition hostIncludingPort (req : Http.Request) : string :=
  let host := Http.Host req in
  if negb (GoStrings.Contains host ":") then host +:+ ":443" else host.

End Program.

(** The calls into the trust store of a trace, and those that add to it. *)
Definition isTrustStoreCall (e : Event) : bool :=
  match e with
  | CallIsInstalled _ | CallAddAsTrustedRoot _ => true
  | _ => false
  end.

Definition isAddCall (e : Event) : bool :=
  match e with
  | CallAddAsTrustedRoot _ => true
  | _ => false
  end.

Definition trustStoreCalls (tr : list Event) : list Event :=
  List.filter isTrustStoreCall tr.

Definition addCalls (tr : list Event) : list Event :=
  List.filter isAddCall tr.

(** The calls of a trace to [RewriteRequest], to the rewrite of a
    [wrappedRoundTripper], and to the transports. *)
Definition isRewriteRequestCall (e : Event) : bool :=
  match e with
  | CallRewriteRequest _ _ => true
  | _ => false
  end.

Definition isRewriteResponseCall (e : Event) : bool :=
  match e with
  | CallRewriteResponse _ => true
  | _ => false
  end.

Definition isTransportCall (e : Event) : bool :=
  match e with
  | CallTransport _ _ => true
  | _ => false
  end.

Definition rewriteRequestCalls (tr : list Event) : list Event :=
  List.filter isRewriteRequestCall tr.

Definition rewriteResponseCalls (tr : list Event) : list Event :=
  List.filter isRewriteResponseCall tr.

Definition transportCalls (tr : list Event) : list Event :=
  List.filter isTransportCall tr.


(** A state that differs from [s] in neither the trust store nor the calls
    made to it. *)
Definition quiet (s s1 : State) : Prop :=
  trustStore s1 = trustStore s /\
  trustStoreCalls (trace s1) = trustStoreCalls (trace s) /\
  addCalls (trace s1) = addCalls (trace s).

End Flashlight.

(** ** [package proxy]: [proxy/client.go] *)

Module Proxy.

Definition CONNECT : string := "CONNECT".

(** [250 * time.Millisecond], in nanoseconds. *)
Definition REVERSE_PROXY_FLUSH_INTERVAL : Z := 250 * 1000000.

(** The fields of [ProxyConfig] that [client.go] reads. *)
Record ProxyConfig := {
  Addr : string;
  ReadTimeout : Z;
  WriteTimeout : Z;
  ShouldDumpHeaders : bool
}.

(** How an [http.Transport] dials: with the [Dial] function of
    [buildReverseProxy], which connects an [enproxy.Conn] configured with
    the client's [EnproxyConfig], or, without a [Dial] function, with
    [net.Dial]. *)
Inductive Dialer := DialEnproxyConn | DialDefault.

Inductive RoundTripper :=
| HttpTransport (DisableKeepAlives : bool) (Dial : Dialer)
| headerDumpingRoundTripper (orig : RoundTripper).

(** The [httputil.ReverseProxy] of a client; its director does nothing. *)
Record ReverseProxy := {
  Transport : RoundTripper;
  FlushInterval : Z
}.

(** The [http.Transport] at the core of a round tripper. *)
Fixpoint dialerOf (rt : RoundTripper) : Dialer :=
  match rt with
  | HttpTransport _ dial => dial
  | headerDumpingRoundTripper orig => dialerOf orig
  end.

Section Client.

(** [enproxy.Config] *)
Variable EnproxyConfig_t : Type.

Record Client := {
  config : ProxyConfig;
  EnproxyConfig : option EnproxyConfig_t;
  reverseProxy : option ReverseProxy
}.

(** Calls into the log and into the two handlers. *)
Inductive Event :=
| Debugf (msg : string)
| CallIntercept (cfg : EnproxyConfig_t) (resp : Http.ResponseWriter) (req : Http.Request)
| CallReverseProxy (p : ReverseProxy) (resp : Http.ResponseWriter) (req : Http.Request).

Inductive Outcome :=
| Returned (tr : list Event)
| Panicked (tr : list Event).

(** [withDumpHeaders] creates a RoundTripper that uses the supplied
    RoundTripper and that dumps headers (if dumpHeaders is true). *)
Definition withDumpHeaders (dumpHeaders : bool) (rt : RoundTripper) : RoundTripper :=
  if negb dumpHeaders then rt else headerDumpingRoundTripper rt.

(** [buildReverseProxy] builds the [httputil.ReverseProxy] used by the
    client to proxy requests upstream. *)
Definition buildReverseProxy (client : Client) : Client :=
  {| config := config client;
     EnproxyConfig := EnproxyConfig client;
     reverseProxy :=
       Some {| Transport :=
                 withDumpHeaders (ShouldDumpHeaders (config client))
                                 (HttpTransport true DialEnproxyConn);
               FlushInterval := 250 * 1000000 |} |}.

(** [ServeHTTP] of a [Client]. *)
Definition ServeHTTP (client : Client) (resp : Http.ResponseWriter)
    (req : Http.Request) : Outcome :=
  let tr := [Debugf ("Handling request for: " +:+ Http.RequestURI req)] in
  if bool_decide (Http.Method req = CONNECT) then
    match EnproxyConfig client with
    | Some cfg => Returned (tr ++ [CallIntercept cfg resp req])
    | None => Panicked tr
    end
  else
    match reverseProxy client with
    | Some p => Returned (tr ++ [CallReverseProxy p resp req])
    | None => Panicked tr
    end.

(** The calls of a trace into a handler. *)
Definition isHandlerCall (e : Event) : bool :=
  match e with
  | Debugf _ => false
  | CallIntercept _ _ _ | CallReverseProxy _ _ _ => true
  end.

End Client.

Arguments config {_} _.
Arguments EnproxyConfig {_} _.
Arguments reverseProxy {_} _.
Arguments Debugf {_} _.
Arguments CallIntercept {_} _ _ _.
Arguments CallReverseProxy {_} _ _ _.
Arguments Returned {_} _.
Arguments Panicked {_} _.
Arguments buildReverseProxy {_} _.
Arguments ServeHTTP {_} _ _ _.
Arguments isHandlerCall {_} _.

(** *** Round trips *)

(** A call of [dumpHeaders(category, &headers)]. *)
Inductive Dump := CallDumpHeaders (category : string) (headers : Http.Header).

(** What an [http.Transport] answers to a request. *)
Definition Exchange : Type := Http.Request -> option Http.Response * option error.

(** A round trip returns a response and an error, or panics; the dumps made
    on the way are kept. *)
Inductive Trip :=
| TripReturned (resp : option Http.Response) (err : option error) (dumps : list Dump)
| TripPanicked (dumps : list Dump).

(** [RoundTrip] of a round tripper.  That of a [headerDumpingRoundTripper]
    dumps the headers of the request and, when the wrapped round tripper
    returns no error, those of the response; [resp.Header] of a [nil]
    response panics. *)
Fixpoint RoundTrip (exchange : Exchange) (rt : RoundTripper) (req : Http.Request) : Trip :=
  match rt with
  | HttpTransport _ _ => let '(resp, err) := exchange req in TripReturned resp err []
  | headerDumpingRoundTripper orig =>
      let dumped := [CallDumpHeaders "Request" (Http.Request_Header req)] in
      match RoundTrip exchange orig req with
      | TripReturned resp err dumps =>
          match err, resp with
          | None, Some r =>
              TripReturned resp err
                (dumped ++ dumps ++ [CallDumpHeaders "Response" (Http.Response_Header r)])
          | None, None => TripPanicked (dumped ++ dumps)
          | Some _, _ => TripReturned resp err (dumped ++ dumps)
          end
      | TripPanicked dumps => TripPanicked (dumped ++ dumps)
      end
  end.

End Proxy.

(** ** Sample inputs *)

Module Examples.

Import Flashlight.

Definition clientFlags : Flags :=
  {| addr := "127.0.0.1:8080"; upstreamHost := "proxy.example.org";
     configDir := ""; instanceId := ""; dumpheaders := false; install := false |}.

(** A protocol that sends every request to one front and keeps the real
    host in a header. *)
Definition frontProtocol : Protocol :=
  {| RewriteRequest := fun req =>
       {| Http.Method := Http.Method req;
          Http.Request_URL :=
            {| Http.Scheme := "https"; Http.URL_Host := "front.example.net";
               Http.Path := Http.Path (Http.Request_URL req);
               Http.RawQuery := Http.RawQuery (Http.Request_URL req) |};
          Http.Request_Header :=
            Http.Header_Set (Http.Request_Header req) "X-Real-Host" (Http.Host req);
          Http.Host := "front.example.net";
          Http.RemoteAddr := Http.RemoteAddr req;
          Http.RequestURI := Http.RequestURI req |};
     RewriteResponse := fun resp =>
       {| Http.StatusCode := Http.StatusCode resp;
          Http.Response_Header := delete "Cf-Ray" (Http.Response_Header resp);
          Http.Body := Http.Body resp |} |}.

Definition sampleResolver (network host : string) : option Net.IPAddr * option error :=
  if bool_decide (host = "localhost")
  then (Some {| Net.IPAddr_IP := [127; 0; 0; 1]; Net.Zone := "" |}, None)
  else if bool_decide (host = "example.com")
       then (Some {| Net.IPAddr_IP := [93; 184; 216; 34]; Net.Zone := "" |}, None)
       else (None, Some (ExternalError "no such host")).

Definition okResponse : Http.Response :=
  {| Http.StatusCode := 200;
     Http.Response_Header := {[ "Cf-Ray" := ["1"] ]};
     Http.Body := [] |}.

(** 13 May 2014, 16:53:20 UTC, and a reading every half second. *)
Definition sampleClock (n : nat) : GoTime.Time :=
  1400000000 * GoTime.nsPerSecond + Z.of_nat n * 500000000.

(** A client whose trust store answers with the given errors. *)
Definition envWithTrustStore (isInstalled addAsTrustedRoot : option error) : Env :=
  {| flags := clientFlags;
     clientProtocol := frontProtocol;
     serverProtocol := frontProtocol;
     resolveIPAddr := sampleResolver;
     transportRoundTrip := fun _ _ => (Some okResponse, None);
     timeNow := sampleClock;
     uuidNew := "6ba7b810-9dad-11d1-80b4-00c04fd430c8";
     keyMaterial := 7;
     generateErr := None;
     writeErr := fun _ => None;
     signErr := None;
     isInstalledErr := isInstalled;
     addAsTrustedRootErr := addAsTrustedRoot |}.

Definition sampleEnv : Env := envWithTrustStore None None.

Definition sampleKey : Keyman.PrivateKey := {| Keyman.Bits := 2048; Keyman.Material := 7 |}.

(** A CA certificate of the sample key that is valid until [notAfter]. *)
Definition rootUntil (notAfter : GoTime.Time) : Keyman.Certificate :=
  {| Keyman.X509 :=
       {| X509.SerialNumber := 123456789;
          X509.Organization := ["Lantern"];
          X509.CommonName := "flashlight-6ba7b810";
          X509.NotBefore := 1300000000 * GoTime.nsPerSecond;
          X509.NotAfter := notAfter;
          X509.BasicConstraintsValid := true;
          X509.KeyUsage := 37;
          X509.ExtKeyUsages := [X509.ExtKeyUsageServerAuth];
          X509.IsCA := true |};
     Keyman.IssuerName := "flashlight-6ba7b810";
     Keyman.SelfSigned := true;
     Keyman.SignedWith := sampleKey |}.

(** A server certificate of the sample key that is valid until
    [notAfter]. *)
Definition leafUntil (notAfter : GoTime.Time) : Keyman.Certificate :=
  {| Keyman.X509 :=
       {| X509.SerialNumber := 987654321;
          X509.Organization := ["Lantern"];
          X509.CommonName := "203.0.113.7";
          X509.NotBefore := 1300000000 * GoTime.nsPerSecond;
          X509.NotAfter := notAfter;
          X509.BasicConstraintsValid := true;
          X509.KeyUsage := 5;
          X509.ExtKeyUsages := [];
          X509.IsCA := false |};
     Keyman.IssuerName := "flashlight-6ba7b810";
     Keyman.SelfSigned := false;
     Keyman.SignedWith := sampleKey |}.

(** Ten days, and ten years, after the sample clock starts. *)
Definition inTenDays : GoTime.Time := (1400000000 + 10 * 86400) * GoTime.nsPerSecond.
Definition inTenYears : GoTime.Time := (1400000000 + 3652 * 86400) * GoTime.nsPerSecond.
(** A year before the sample clock starts. *)
Definition lastYear : GoTime.Time := (1400000000 - 365 * 86400) * GoTime.nsPerSecond.

(** Nothing persisted. *)
Definition firstRun : State := initialState ∅ [].

(** A key and a CA certificate that expires in ten days. *)
Definition expiringRootRun : State :=
  initialState
    (<["proxypk.pem" := PrivateKeyPEM sampleKey]>
       {[ "cacert.pem" := CertificatePEM (rootUntil inTenDays) ]}) [].

(** A server about to call [initServerCert]: the key and a CA certificate
    valid for ten years are loaded, and the persisted server certificate
    expired a year ago. *)
Definition expiredLeafRun : State :=
  {| files := <["proxypk.pem" := PrivateKeyPEM sampleKey]>
                (<["cacert.pem" := CertificatePEM (rootUntil inTenYears)]>
                   {[ "servercert.pem" := CertificatePEM (leafUntil lastYear) ]});
     trustStore := []; ticks := 4; trace := [];
     pk := Some sampleKey; caCert := Some (rootUntil inTenYears);
     serverCert := None |}.

(** A key and a CA certificate valid for ten years, the certificate in the
    trust store already. *)
Definition secondRun : State :=
  initialState
    (<["proxypk.pem" := PrivateKeyPEM sampleKey]>
       {[ "cacert.pem" := CertificatePEM (rootUntil inTenYears) ]})
    [rootUntil inTenYears].

(** A key file that cannot be read. *)
Definition unreadableKeyRun : State :=
  initialState {[ "proxypk.pem" := Unreadable "permission denied" ]} [].

(** A server about to call [initServerCert] for the first time: the key and
    the CA certificate are loaded and no server certificate is persisted. *)
Definition serverFirstRun : State :=
  {| files := <["proxypk.pem" := PrivateKeyPEM sampleKey]>
                {[ "cacert.pem" := CertificatePEM (rootUntil inTenYears) ]};
     trustStore := []; ticks := 4; trace := [];
     pk := Some sampleKey; caCert := Some (rootUntil inTenYears);
     serverCert := None |}.

(** The start of a process over the files of [expiredLeafRun]. *)
Definition expiredLeafStart : State := initialState (files expiredLeafRun) [].

(** An exchange that always answers with [okResponse]. *)
Definition okExchange : Proxy.Exchange := fun _ => (Some okResponse, None).

(** The state after the first run, and the CA certificate it generated. *)
Definition firstRunDone : State := stateOf (initCommonCerts sampleEnv firstRun).
Definition firstRunRoot : Keyman.Certificate :=
  default (rootUntil 0) (caCert firstRunDone).

(** The state after [initCommonCerts] over the files of [expiredLeafRun]. *)
Definition expiredLeafLoaded : State :=
  stateOf (initCommonCerts sampleEnv expiredLeafStart).

(** A state with the sample key loaded. *)
Definition keyLoaded : State :=
  {| files := ∅; trustStore := []; ticks := 4; trace := [];
     pk := Some sampleKey; caCert := None; serverCert := None |}.

Definition requestTo (method host : string) (header : Http.Header) : Http.Request :=
  {| Http.Method := method;
     Http.Request_URL :=
       {| Http.Scheme := "http"; Http.URL_Host := host; Http.Path := "/";
          Http.RawQuery := "" |};
     Http.Request_Header := header;
     Http.Host := host;
     Http.RemoteAddr := "198.51.100.23:51234";
     Http.RequestURI := "http://" +:+ host +:+ "/" |}.

Definition remoteRequest : Http.Request := requestTo "GET" "example.com" ∅.

Definition infoRequest : Http.Request :=
  requestTo "GET" "proxy.example.org"
    (<["X-Lantern-Request-Info" := ["1"]]>
       {[ "X-Forwarded-For" := ["10.0.0.1,203.0.113.9"] ]}).

(** An info request of a caller at the IPv6 address [2001:db8::1], not
    forwarded by a proxy. *)
Definition ipv6InfoRequest : Http.Request :=
  {| Http.Method := "GET";
     Http.Request_URL :=
       {| Http.Scheme := "http"; Http.URL_Host := "proxy.example.org";
          Http.Path := "/"; Http.RawQuery := "" |};
     Http.Request_Header := {[ "X-Lantern-Request-Info" := ["1"] ]};
     Http.Host := "proxy.example.org";
     Http.RemoteAddr := "[" +:+ "2001:db8::1" +:+ "]:" +:+ "51234";
     Http.RequestURI := "/" |}.

Definition freshWriter : Http.ResponseWriter :=
  {| Http.Writer_Header := ∅; Http.wroteHeader := false; Http.status := 0;
     Http.sentHeader := ∅; Http.written := [] |}.

Definition sampleClient : Proxy.Client string :=
  {| Proxy.config :=
       {| Proxy.Addr := "127.0.0.1:8080"; Proxy.ReadTimeout := 0;
          Proxy.WriteTimeout := 0; Proxy.ShouldDumpHeaders := false |};
     Proxy.EnproxyConfig := Some "enproxy";
     Proxy.reverseProxy := None |}.

End Examples.

(** * Properties

    ** The certificate lifecycle *)

Import GoTime Flashlight.

(** ** The calendar *)

(** [civilFromDays] yields a month and a day of the calendar, and
    [daysFromCivil] maps them back to the day number. *)
Lemma civilFromDays_spec z y m d :
  civilFromDays z = (y, m, d) ->
  1 <= m <= 12 /\ 1 <= d <= 31 /\ daysFromCivil y m d = z.
Proof.
  unfold civilFromDays. cbv zeta.
  set (era := (z + 719468) / 146097).
  set (doe := z + 719468 - era * 146097).
  set (yoe := (doe - doe / 1460 + doe / 36524 - doe / 146096) / 365).
  set (doy := doe - (365 * yoe + yoe / 4 - yoe / 100)).
  set (mp := (5 * doy + 2) / 153).
  assert (0 <= doe <= 146096) as Hdoe by (subst doe era; Z.div_mod_to_equations; lia).
  assert (0 <= yoe <= 399) as Hyoe by (subst yoe; Z.div_mod_to_equations; lia).
  assert (0 <= doy <= 365) as Hdoy.
  { subst doy yoe. revert Hdoe. generalize doe. clear. intros doe Hdoe.
    Z.div_mod_to_equations; lia. }
  assert (0 <= mp <= 11) as Hmp by (subst mp; Z.div_mod_to_equations; lia).
  assert (1 <= doy - (153 * mp + 2) / 5 + 1 <= 31) as Hd.
  { subst mp. revert Hdoy. generalize doy. clear. intros doy Hdoy.
    Z.div_mod_to_equations; lia. }
  intros [= <- <- <-].
  split; [destruct (mp <? 10) eqn:E; lia|]. split; [exact Hd|].
  unfold daysFromCivil. cbv zeta.
  assert (((if mp <? 10 then mp + 3 else mp - 9) + 9) mod 12 = mp) as ->.
  { destruct (mp <? 10) eqn:E; Z.div_mod_to_equations; lia. }
  assert ((if (if mp <? 10 then mp + 3 else mp - 9) <=? 2
           then (if (if mp <? 10 then mp + 3 else mp - 9) <=? 2
                 then yoe + era * 400 + 1 else yoe + era * 400) - 1
           else (if (if mp <? 10 then mp + 3 else mp - 9) <=? 2
                 then yoe + era * 400 + 1 else yoe + era * 400)) = yoe + era * 400) as ->.
  { destruct (_ <=? 2); lia. }
  assert ((yoe + era * 400) / 400 = era) as -> by (Z.div_mod_to_equations; lia).
  replace (yoe + era * 400 - era * 400) with yoe by ring.
  subst doy doe. lia.
Qed.


Lemma daysFromCivil_day y m d : daysFromCivil y m d = daysFromCivil y m 1 + (d - 1).
Proof. unfold daysFromCivil. cbv zeta. lia. Qed.

Lemma daysFromCivil_decade y m :
  3651 <= daysFromCivil (y + 10) m 1 - daysFromCivil y m 1 <= 3653.
Proof.
  unfold daysFromCivil. cbv zeta.
  destruct (m <=? 2).
  - replace (y + 10 - 1) with (y - 1 + 10) by lia. generalize (y - 1). clear. intros y.
    generalize ((153 * ((m + 9) mod 12) + 2) / 5). intros k.
    Z.div_mod_to_equations; lia.
  - generalize ((153 * ((m + 9) mod 12) + 2) / 5). intros k.
    Z.div_mod_to_equations; lia.
Qed.

(** Ten calendar years are 3651 to 3653 days. *)
Lemma AddDate_ten_years t :
  t + 3651 * nsPerDay <= AddDate t 10 0 0 <= t + 3653 * nsPerDay.
Proof.
  unfold AddDate. destruct (civilFromDays (t / nsPerDay)) as [[y m] d] eqn:E.
  apply civilFromDays_spec in E as (Hm & Hd & Hz).
  unfold Date. cbv zeta.
  replace ((m + 0 - 1) / 12) with 0 by (Z.div_mod_to_equations; lia).
  replace ((m + 0 - 1) mod 12 + 1) with m by (Z.div_mod_to_equations; lia).
  replace (y + 10 + 0) with (y + 10) by lia.
  pose proof (daysFromCivil_decade y m) as Hdecade.
  rewrite daysFromCivil_day in Hz.
  pose proof (Z.div_mod t nsPerDay ltac:(unfold nsPerDay, nsPerSecond; lia)) as Ht.
  revert Ht Hz Hdecade.
  generalize (daysFromCivil (y + 10) m 1) (daysFromCivil y m 1) (t mod nsPerDay) (t / nsPerDay).
  unfold nsPerDay, nsPerSecond. intros. lia.
Qed.

(** [TEN_YEARS_FROM_TODAY] is ten calendar years, that is 3651 to 3653
    days, after its reading of the clock. *)
Lemma TEN_YEARS_FROM_TODAY_eq env :
  TEN_YEARS_FROM_TODAY env = AddDate (timeNow env 3) 10 0 0.
Proof. reflexivity. Qed.

Lemma TEN_YEARS_FROM_TODAY_bounds env :
  timeNow env 3 + 3651 * nsPerDay <= TEN_YEARS_FROM_TODAY env
    <= timeNow env 3 + 3653 * nsPerDay.
Proof. rewrite TEN_YEARS_FROM_TODAY_eq. apply AddDate_ten_years. Qed.

Lemma append_inj_l (p a b : string) : p +:+ a = p +:+ b -> a = b.
Proof.
  induction p as [|c p IH]; simpl; [done|].
  intros [= H]. by apply IH.
Qed.

Lemma inConfigDir_inj env (a b : string) :
  inConfigDir env a = inConfigDir env b -> a = b.
Proof.
  unfold inConfigDir. case_bool_decide as Hdir; [done|].
  intros Heq. apply append_inj_l in Heq. by apply (append_inj_l "/") in Heq.
Qed.

Lemma PK_FILE_neq_CA_CERT_FILE env : PK_FILE env <> CA_CERT_FILE env.
Proof. intros H. apply inConfigDir_inj in H. discriminate. Qed.

Lemma CA_CERT_FILE_neq_SERVER_CERT_FILE env : CA_CERT_FILE env <> SERVER_CERT_FILE env.
Proof. intros H. apply inConfigDir_inj in H. discriminate. Qed.

(** Unfolds the monad at the head of a run. *)
Ltac step :=
  repeat (progress (unfold mbind, mret, M_bind, M_ret, get, deref, panic, emit,
                      setFiles, setTrustStore, setTicks, setPk, setCaCert,
                      setServerCert, logPrintf, Now;
                    cbn beta iota delta [files trustStore ticks trace pk caCert serverCert IsNotExist])).

(** [installCACertToTrustStoreIfNecessary] returns whenever the CA
    certificate is set. *)
Lemma install_returns env s cert :
  caCert s = Some cert ->
  exists err s',
    installCACertToTrustStoreIfNecessary env s = Returned err s' /\
    files s' = files s /\ pk s' = pk s /\ caCert s' = caCert s /\
    serverCert s' = serverCert s.
Proof.
  intros Hca. unfold installCACertToTrustStoreIfNecessary,
    Certificate_IsInstalled, Certificate_AddAsTrustedRoot.
  destruct (isDownstream env || install (flags env)); step; rewrite ?Hca; step.
  - destruct (isInstalledErr env); step; [by eauto 10|].
    destruct (existsb _ _); step; rewrite ?Hca; step; [by eauto 10|].
    destruct (addAsTrustedRootErr env); step; by eauto 10.
  - by eauto 10.
Qed.

Lemma initCommonCerts_install_returns env s cert :
  caCert s = Some cert ->
  exists s',
    initCommonCerts_install env s = Returned None s' /\
    files s' = files s /\ pk s' = pk s /\ caCert s' = caCert s /\
    serverCert s' = serverCert s.
Proof.
  intros Hca. unfold initCommonCerts_install. step.
  destruct (install_returns env s cert Hca) as (err & s' & -> & ?).
  destruct err; step; eauto.
Qed.

(** [certificateFor] with a key at hand and a signer that succeeds. *)
Lemma certificateFor_returns env s key name validUntil isCA issuer :
  pk s = Some key ->
  signErr env = None ->
  exists cert s',
    certificateFor env name validUntil isCA issuer s = Returned (Some cert, None) s' /\
    X509.SerialNumber (Keyman.X509 cert) = Nanosecond (timeNow env (ticks s)) /\
    X509.CommonName (Keyman.X509 cert) = name /\
    X509.NotAfter (Keyman.X509 cert) = validUntil /\
    Keyman.SignedWith cert = key /\
    Keyman.SelfSigned cert = (if issuer is Some _ then false else true) /\
    X509.IsCA (Keyman.X509 cert) = (if issuer is Some _ then false else true) /\
    X509.KeyUsage (Keyman.X509 cert) =
      (if issuer is Some _ then Z.lor X509.KeyUsageKeyEncipherment X509.KeyUsageDigitalSignature
       else if isCA
            then Z.lor (Z.lor X509.KeyUsageKeyEncipherment X509.KeyUsageDigitalSignature)
                       X509.KeyUsageCertSign
            else Z.lor X509.KeyUsageKeyEncipherment X509.KeyUsageDigitalSignature) /\
    files s' = files s /\ trustStore s' = trustStore s /\ trace s' = trace s /\
    pk s' = pk s /\ caCert s' = caCert s /\ serverCert s' = serverCert s /\
    ticks s' = S (S (ticks s)).
Proof.
  intros Hpk Hsign. unfold certificateFor, PrivateKey_Certificate. step.
  rewrite Hpk, Hsign. step.
  destruct issuer; eexists _, _; (split; [reflexivity|]); cbn; by repeat split.
Qed.

(** C7. When neither the private key nor the CA certificate is persisted
    (and generating, signing and writing succeed), [initCommonCerts]
    returns [nil] with a generated key of at least 2048 bits and a
    self-signed CA certificate that has [IsCA] set, whose key usage
    includes certificate signing and whose [NotAfter] is
    [TEN_YEARS_FROM_TODAY], ten calendar years (3651 to 3653 days) after
    the clock reading taken when the process starts; the key is written to
    [PK_FILE] and the certificate to [CA_CERT_FILE]. *)
Theorem initCommonCerts_generates_key_and_root env s :
  files s !! PK_FILE env = None ->
  files s !! CA_CERT_FILE env = None ->
  generateErr env = None ->
  signErr env = None ->
  writeErr env (PK_FILE env) = None ->
  writeErr env (CA_CERT_FILE env) = None ->
  exists key cert s',
    initCommonCerts env s = Returned None s' /\
    pk s' = Some key /\ 2048 <= Keyman.Bits key /\
    caCert s' = Some cert /\
    Keyman.SelfSigned cert = true /\
    Keyman.SignedWith cert = key /\
    X509.IsCA (Keyman.X509 cert) = true /\
    X509.hasKeyUsage (X509.KeyUsage (Keyman.X509 cert)) X509.KeyUsageCertSign = true /\
    X509.NotAfter (Keyman.X509 cert) = TEN_YEARS_FROM_TODAY env /\
    timeNow env 3 + 3651 * nsPerDay <= X509.NotAfter (Keyman.X509 cert)
      <= timeNow env 3 + 3653 * nsPerDay /\
    files s' !! PK_FILE env = Some (PrivateKeyPEM key) /\
    files s' !! CA_CERT_FILE env = Some (CertificatePEM cert).
Proof.
  intros Hpk Hca Hgen Hsign Hwpk Hwca.
  unfold initCommonCerts, LoadPKFromFile, GeneratePK, PrivateKey_WriteToFile,
    writeToFile.
  step. rewrite Hpk, Hgen, Hwpk. step.
  set (key := {| Keyman.Bits := 2048; Keyman.Material := keyMaterial env |}).
  match goal with |- context [initCommonCerts_caCert env ?st] => set (s1 := st) end.
  unfold initCommonCerts_caCert, LoadCertificateFromFile. step.
  assert (files s1 !! CA_CERT_FILE env = None) as ->.
  { subst s1. cbn [files]. rewrite lookup_insert_ne; [exact Hca|apply PK_FILE_neq_CA_CERT_FILE]. }
  step.
  match goal with |- context [certificateFor env ?n ?v ?c ?i ?st] =>
    destruct (certificateFor_returns env st key n v c i eq_refl Hsign)
      as (cert & s2 & -> & _ & _ & Hna & Hkey & Hself & Hisca & Husage & Hfiles & _ & _ & Hpk2 & _ & _)
  end.
  step. unfold Certificate_WriteToFile, writeToFile. rewrite Hwca. step.
  match goal with |- context [initCommonCerts_install env ?st] =>
    destruct (initCommonCerts_install_returns env st cert eq_refl)
      as (s3 & -> & Hf3 & Hpk3 & Hca3 & _)
  end.
  exists key, cert, s3. split; [reflexivity|].
  rewrite Hpk3, Hca3, Hf3. cbn [files pk caCert]. rewrite Hpk2, Hfiles.
  subst s1. cbn [files pk].
  split; [reflexivity|]. split; [unfold key; cbn [Keyman.Bits]; lia|]. split; [reflexivity|].
  split; [exact Hself|]. split; [exact Hkey|]. split; [exact Hisca|].
  split; [rewrite Husage; reflexivity|].
  split; [exact Hna|].
  split; [rewrite Hna; apply TEN_YEARS_FROM_TODAY_bounds|]. split.
  - rewrite lookup_insert_ne by (apply not_eq_sym, PK_FILE_neq_CA_CERT_FILE).
    apply lookup_insert_eq.
  - apply lookup_insert_eq.
Qed.

(** C1. A CA certificate that loads but expires before
    [ONE_MONTH_FROM_TODAY] is not regenerated: [os.IsNotExist(nil)] is
    false, so [initCommonCerts] returns the error "Unable to read CA cert,
    even though it exists", leaving the files and the certificate as they
    were. *)
Theorem initCommonCerts_expiring_root_is_error env s key cert :
  files s !! PK_FILE env = Some (PrivateKeyPEM key) ->
  files s !! CA_CERT_FILE env = Some (CertificatePEM cert) ->
  Before (X509.NotAfter (Keyman.X509 cert)) (ONE_MONTH_FROM_TODAY env) = true ->
  exists s',
    initCommonCerts env s =
      Returned (Some (ErrorfNil "Unable to read CA cert, even though it exists")) s' /\
    files s' = files s /\ caCert s' = Some cert /\
    trace s' = trace s /\ trustStore s' = trustStore s.
Proof.
  intros Hpk Hca Hexp.
  unfold initCommonCerts, LoadPKFromFile. step. rewrite Hpk. step.
  unfold initCommonCerts_caCert, LoadCertificateFromFile. step.
  rewrite Hca. step. rewrite Hexp. step.
  eexists. split; [reflexivity|]. by repeat split.
Qed.

(** C2. In [initServerCert] a server certificate that loads is kept
    whenever the CA certificate's [NotAfter] is not before
    [ONE_MONTH_FROM_TODAY], whatever its own [NotAfter] is. *)
Theorem initServerCert_reuse_follows_root_expiry env host s leaf ca :
  files s !! SERVER_CERT_FILE env = Some (CertificatePEM leaf) ->
  caCert s = Some ca ->
  Before (X509.NotAfter (Keyman.X509 ca)) (ONE_MONTH_FROM_TODAY env) = false ->
  exists s',
    initServerCert env host s = Returned None s' /\
    serverCert s' = Some leaf /\ files s' = files s /\ trace s' = trace s.
Proof.
  intros Hleaf Hca Hroot.
  unfold initServerCert, LoadCertificateFromFile. step.
  rewrite Hleaf. step. rewrite Hca. step. rewrite Hroot. step.
  eexists. split; [reflexivity|]. by repeat split.
Qed.

(** The other direction: a server certificate that loads is replaced
    whenever the CA certificate's [NotAfter] is before
    [ONE_MONTH_FROM_TODAY], however long it is still valid itself. *)
Lemma initServerCert_regenerates_on_root_expiry env host s leaf ca key :
  files s !! SERVER_CERT_FILE env = Some (CertificatePEM leaf) ->
  caCert s = Some ca ->
  pk s = Some key ->
  signErr env = None ->
  writeErr env (SERVER_CERT_FILE env) = None ->
  Before (X509.NotAfter (Keyman.X509 ca)) (ONE_MONTH_FROM_TODAY env) = true ->
  exists cert s',
    initServerCert env host s = Returned None s' /\
    serverCert s' = Some cert /\
    X509.NotAfter (Keyman.X509 cert) = ONE_YEAR_FROM_TODAY env /\
    X509.SerialNumber (Keyman.X509 cert) = Nanosecond (timeNow env (ticks s)) /\
    files s' = <[SERVER_CERT_FILE env := CertificatePEM cert]> (files s).
Proof.
  intros Hleaf Hca Hpk Hsign Hwrite Hroot.
  unfold initServerCert, LoadCertificateFromFile. step.
  rewrite Hleaf. step. rewrite Hca. step. rewrite Hroot. step.
  match goal with |- context [certificateFor env ?n ?v ?c ?i ?st] =>
    destruct (certificateFor_returns env st key n v c i Hpk Hsign)
      as (cert & s2 & -> & Hserial & _ & Hna & _ & _ & _ & _ & Hfiles & _)
  end.
  step. unfold Certificate_WriteToFile, writeToFile. rewrite Hwrite. step.
  exists cert. eexists. split; [reflexivity|]. cbn [serverCert files].
  rewrite Hfiles. by repeat split.
Qed.

(** C5. The serial number of a certificate is the nanosecond within the
    second of the clock reading, so two issuances by [certificateFor], one
    after the other, whose readings are a whole number of seconds apart
    get the same serial number. *)
Theorem certificateFor_serial_collision env s key name1 name2 until1 until2
    isCA1 isCA2 issuer1 issuer2 :
  pk s = Some key ->
  signErr env = None ->
  (timeNow env (S (S (ticks s))) - timeNow env (ticks s)) mod nsPerSecond = 0 ->
  exists cert1 s1 cert2 s2,
    certificateFor env name1 until1 isCA1 issuer1 s = Returned (Some cert1, None) s1 /\
    certificateFor env name2 until2 isCA2 issuer2 s1 = Returned (Some cert2, None) s2 /\
    X509.SerialNumber (Keyman.X509 cert1) = X509.SerialNumber (Keyman.X509 cert2).
Proof.
  intros Hpk Hsign Hgap.
  destruct (certificateFor_returns env s key name1 until1 isCA1 issuer1 Hpk Hsign)
    as (cert1 & s1 & Hrun1 & Hserial1 & _ & _ & _ & _ & _ & _ & _ & _ & _ & Hpk1 & _ & _ & Hticks).
  rewrite <- Hpk1 in Hpk.
  destruct (certificateFor_returns env s1 key name2 until2 isCA2 issuer2 Hpk Hsign)
    as (cert2 & s2 & Hrun2 & Hserial2 & _).
  exists cert1, s1, cert2, s2. split; [exact Hrun1|]. split; [exact Hrun2|].
  rewrite Hserial1, Hserial2, Hticks. unfold Nanosecond.
  symmetry. apply Z.sub_move_0_r. 
  rewrite <- Zminus_mod_idemp_l, <- Zminus_mod_idemp_r in Hgap.
  unfold nsPerSecond in *.
  pose proof (Z.mod_pos_bound (timeNow env (S (S (ticks s)))) 1000000000 ltac:(lia)).
  pose proof (Z.mod_pos_bound (timeNow env (ticks s)) 1000000000 ltac:(lia)).
  apply Z.mod_divide in Hgap; [|lia]. destruct Hgap as [k Hk]. lia.
Qed.

(** *** The trust store *)

Lemma trustStoreCalls_app tr tr' :
  trustStoreCalls (tr ++ tr') = trustStoreCalls tr ++ trustStoreCalls tr'.
Proof. apply List.filter_app. Qed.

Lemma addCalls_app tr tr' : addCalls (tr ++ tr') = addCalls tr ++ addCalls tr'.
Proof. apply List.filter_app. Qed.

Lemma quiet_refl s : quiet s s.
Proof. by repeat split. Qed.


Lemma trustStoreCalls_Printf tr msg :
  trustStoreCalls (tr ++ [Printf msg]) = trustStoreCalls tr.
Proof. rewrite trustStoreCalls_app. apply app_nil_r. Qed.

Lemma addCalls_Printf tr msg : addCalls (tr ++ [Printf msg]) = addCalls tr.
Proof. rewrite addCalls_app. apply app_nil_r. Qed.

Create Rewrite HintDb quiet_trace.
#[local] Hint Rewrite trustStoreCalls_Printf addCalls_Printf : quiet_trace.







(** On a first run of a client whose trust store refuses the certificate,
    [initCommonCerts] returns [nil] and logs the failure. *)
Example initCommonCerts_install_failure_is_logged :
  exists s',
    initCommonCerts
      (Examples.envWithTrustStore None (Some (ExternalError "permission denied")))
      Examples.firstRun = Returned None s' /\
    trustStore s' = [] /\
    last (trace s') =
      Some (Printf "Unable to install CA Cert to trust store, man in the middling may not work.  Suggest running flashlight as sudo with the -install flag").
Proof. eexists. split; [vm_compute; reflexivity|]. split; reflexivity. Qed.

(** On a first run the generated certificate is added to the trust store;
    on a later run, with the certificate there, nothing is added. *)
Example initCommonCerts_installs_once :
  (exists cert s',
     initCommonCerts Examples.sampleEnv Examples.firstRun = Returned None s' /\
     caCert s' = Some cert /\ trustStore s' = [cert]) /\
  (exists s',
     initCommonCerts Examples.sampleEnv Examples.secondRun = Returned None s' /\
     trustStore s' = trustStore Examples.secondRun /\ addCalls (trace s') = []).
Proof.
  split.
  - eexists _, _. split; [vm_compute; reflexivity|]. split; reflexivity.
  - eexists. split; [vm_compute; reflexivity|]. split; reflexivity.
Qed.

(** ** Splitting strings *)

Lemma Split_nonempty s sep : GoStrings.Split s sep <> [].
Proof.
  destruct s as [|c rest]; cbn; [done|].
  destruct (Ascii.eqb c sep); [done|]. by destruct (GoStrings.Split rest sep).
Qed.

Lemma first_Split_is_Some s sep : is_Some (GoStrings.first (GoStrings.Split s sep)).
Proof.
  pose proof (Split_nonempty s sep). unfold GoStrings.first.
  destruct (GoStrings.Split s sep); [done|]. by eexists.
Qed.

Lemma final_Split_is_Some s sep : is_Some (GoStrings.final (GoStrings.Split s sep)).
Proof.
  pose proof (Split_nonempty s sep). unfold GoStrings.final.
  destruct (GoStrings.Split s sep) as [|x l] using rev_ind; [done|].
  rewrite last_snoc. by eexists.
Qed.

(** The first piece is the part of the string before the first separator. *)
Lemma first_Split_prefix s sep piece :
  GoStrings.first (GoStrings.Split s sep) = Some piece ->
  GoStrings.Contains piece sep = false /\
  (s = piece \/ exists rest, s = piece +:+ String sep rest).
Proof.
  revert piece. induction s as [|c rest IH]; intros piece; cbn.
  - intros [= <-]. by split; [|left].
  - destruct (Ascii.eqb c sep) eqn:Hc.
    + apply Ascii.eqb_eq in Hc as ->. cbn. intros [= <-].
      split; [done|]. right. by exists rest.
    + pose proof (Split_nonempty rest sep) as Hne.
      destruct (GoStrings.Split rest sep) as [|p ps]; [done|].
      cbn. intros [= <-]. destruct (IH p eq_refl) as [Hp Hs].
      cbn. rewrite Hc, Hp. split; [done|].
      destruct Hs as [->|[rest' ->]]; [by left|right; by exists rest'].
Qed.

Lemma Split_no_separator s sep :
  GoStrings.Contains s sep = false -> GoStrings.Split s sep = [s].
Proof.
  induction s as [|c rest IH]; cbn; [done|].
  intros [Hc Hrest]%orb_false_iff. rewrite Hc, (IH Hrest). done.
Qed.

Lemma Split_single s sep piece :
  GoStrings.Split s sep = [piece] -> s = piece /\ GoStrings.Contains s sep = false.
Proof.
  revert piece. induction s as [|c rest IH]; intros piece; cbn.
  - by intros [= <-].
  - pose proof (Split_nonempty rest sep) as Hne.
    destruct (Ascii.eqb c sep) eqn:Hc.
    + intros [= _ Hnil]. done.
    + destruct (GoStrings.Split rest sep) as [|p ps]; [done|].
      intros [= <- ->]. destruct (IH p eq_refl) as [-> Hrest]. by rewrite Hrest.
Qed.

(** The last piece is the part of the string after the last separator. *)
Lemma final_Split_suffix s sep piece :
  GoStrings.final (GoStrings.Split s sep) = Some piece ->
  GoStrings.Contains piece sep = false /\
  (s = piece \/ exists front, s = front +:+ String sep piece).
Proof.
  unfold GoStrings.final.
  revert piece. induction s as [|c rest IH]; intros piece; cbn.
  - intros [= <-]. by split; [|left].
  - pose proof (Split_nonempty rest sep) as Hne.
    destruct (Ascii.eqb c sep) eqn:Hc.
    + apply Ascii.eqb_eq in Hc as ->.
      destruct (GoStrings.Split rest sep) as [|p ps] eqn:Hsplit; [done|].
      change (last (EmptyString :: p :: ps)) with (last (p :: ps)).
      intros Hlast. destruct (IH piece Hlast) as [Hp Hs]. split; [done|].
      right. destruct Hs as [->|[front ->]]; [by exists EmptyString|].
      by exists (String sep front).
    + destruct (GoStrings.Split rest sep) as [|p [|q qs]] eqn:Hsplit; [done| |].
      * cbn. intros [= <-]. destruct (Split_single _ _ _ Hsplit) as [-> Hp].
        cbn. rewrite Hc, Hp. by split; [|left].
      * change (last (String c p :: q :: qs)) with (last (p :: q :: qs)).
        intros Hlast. destruct (IH piece Hlast) as [Hp Hs]. split; [done|].
        destruct Hs as [->|[front ->]].
        -- rewrite (Split_no_separator _ _ Hp) in Hsplit. done.
        -- right. by exists (String c front).
Qed.

(** ** The client proxy *)

Lemma filter_snoc_false {A} (f : A -> bool) l x :
  f x = false -> List.filter f (l ++ [x]) = List.filter f l.
Proof. intros Hx. rewrite List.filter_app. cbn. rewrite Hx. apply app_nil_r. Qed.

Lemma filter_snoc_true {A} (f : A -> bool) l x :
  f x = true -> List.filter f (l ++ [x]) = List.filter f l ++ [x].
Proof. intros Hx. rewrite List.filter_app. cbn. by rewrite Hx. Qed.

(** Settles what a filter of calls keeps of a trace extended by events. *)
Ltac calls :=
  unfold rewriteRequestCalls, rewriteResponseCalls, transportCalls,
    trustStoreCalls, addCalls;
  cbn [trace stateOf];
  repeat first
    [ rewrite filter_snoc_false by reflexivity
    | rewrite filter_snoc_true by reflexivity ];
  rewrite ?app_nil_r; try reflexivity.

(** C3. The director of the client proxy looks at the address that the
    host of the request resolves to: for a loopback address it returns the
    request as it is and [RewriteRequest] is not called; for any other
    address [RewriteRequest] is called, once, on the request. *)
Theorem clientProxy_Director_rewrites_unless_loopback env req s host addr :
  GoStrings.first (GoStrings.Split (Http.Host req) ":") = Some host ->
  resolveIPAddr env "ip4" host = (Some addr, None) ->
  exists s',
    clientProxy_Director env req s =
      Returned (if Net.IsLoopback (Net.IPAddr_IP addr) then req
                else RewriteRequest (clientProtocol env) req) s' /\
    rewriteRequestCalls (trace s') =
      rewriteRequestCalls (trace s) ++
      (if Net.IsLoopback (Net.IPAddr_IP addr) then []
       else [CallRewriteRequest ClientSide req]).
Proof.
  intros Hhost Hresolve. unfold clientProxy_Director, dumpHeaders.
  rewrite Hhost. step. rewrite Hresolve. step.
  destruct (Net.IsLoopback (Net.IPAddr_IP addr)); step;
    destruct (dumpheaders (flags env)); step;
    (eexists; split; [reflexivity|]); calls.
Qed.

(** C10. When the host of the request does not resolve, the director of
    the client proxy returns the request as it is without calling
    [RewriteRequest], and the client proxy hands this very request to its
    transport. *)
Theorem clientProxy_unresolved_host_not_rewritten env req s host ip e :
  GoStrings.first (GoStrings.Split (Http.Host req) ":") = Some host ->
  resolveIPAddr env "ip4" host = (ip, Some e) ->
  (exists s',
     clientProxy_Director env req s = Returned req s' /\
     rewriteRequestCalls (trace s') = rewriteRequestCalls (trace s)) /\
  (forall rw,
     let s' := stateOf (ReverseProxy_ServeHTTP (clientProxy env) rw req s) in
     rewriteRequestCalls (trace s') = rewriteRequestCalls (trace s) /\
     transportCalls (trace s') = transportCalls (trace s) ++ [CallTransport ClientSide req]).
Proof.
  intros Hhost Hresolve. split.
  - unfold clientProxy_Director, dumpHeaders.
    rewrite Hhost. step. rewrite Hresolve. step.
    destruct (dumpheaders (flags env)); step; (eexists; split; [reflexivity|]); calls.
  - intros rw. unfold ReverseProxy_ServeHTTP, clientProxy.
    cbn [Director Transport]. unfold clientProxy_Director, dumpHeaders,
      wrappedRoundTripper_RoundTrip, withRewrite, httpTransport, dumpHeaders.
    cbn [orig rewrite]. rewrite Hhost. step. rewrite Hresolve. step.
    destruct (dumpheaders (flags env)); step;
      destruct (transportRoundTrip env ClientSide req) as [[r|] [e'|]]; step;
      split; calls.
Qed.

(** ** The server handler *)

Lemma Header_Get_Set h key value :
  Http.Header_Get (Http.Header_Set h key value) key = value.
Proof. unfold Http.Header_Get, Http.Header_Set. by rewrite lookup_insert_eq. Qed.

(** A request whose [X-Lantern-Request-Info] header is not empty is
    answered by [handleInfoRequest] alone: the state is left as it was, so
    neither the server protocol nor the transport of [serverProxy] is
    called.  On a writer that has sent nothing, the answer has status 200,
    no body, and in its [X-LANTERN-PUBLIC-IP] header the last piece of
    [X-Forwarded-For] or, without that header, the first piece of
    [RemoteAddr]. *)
Theorem handleServer_answers_info_request env resp req s :
  Http.Header_Get (Http.Request_Header req) X_LANTERN_REQUEST_INFO <> "" ->
  Http.wroteHeader resp = false ->
  Http.written resp = [] ->
  exists clientIp resp',
    (if bool_decide (Http.Header_Get (Http.Request_Header req) "X-Forwarded-For" = "")
     then GoStrings.first (GoStrings.Split (Http.RemoteAddr req) ":")
     else GoStrings.final
            (GoStrings.Split (Http.Header_Get (Http.Request_Header req) "X-Forwarded-For") ","))
      = Some clientIp /\
    handleServer env resp req s = Returned resp' s /\
    handleInfoRequest resp req s = Returned resp' s /\
    Http.wroteHeader resp' = true /\
    Http.status resp' = 200 /\
    Http.Header_Get (Http.sentHeader resp') X_LANTERN_PUBLIC_IP = clientIp /\
    Http.written resp' = [].
Proof.
  intros Hinfo Hfresh Hbody.
  assert (exists clientIp,
    (if bool_decide (Http.Header_Get (Http.Request_Header req) "X-Forwarded-For" = "")
     then GoStrings.first (GoStrings.Split (Http.RemoteAddr req) ":")
     else GoStrings.final
            (GoStrings.Split (Http.Header_Get (Http.Request_Header req) "X-Forwarded-For") ","))
      = Some clientIp) as [clientIp Hip].
  { case_bool_decide.
    - destruct (first_Split_is_Some (Http.RemoteAddr req) ":") as [ip ->]. by exists ip.
    - destruct (final_Split_is_Some
                  (Http.Header_Get (Http.Request_Header req) "X-Forwarded-For") ",")
        as [ip ->]. by exists ip. }
  exists clientIp.
  exists (Http.WriteHeader (Http.Writer_Header_Set resp X_LANTERN_PUBLIC_IP clientIp) 200).
  split; [exact Hip|].
  assert (handleInfoRequest resp req s =
          Returned (Http.WriteHeader
                      (Http.Writer_Header_Set resp X_LANTERN_PUBLIC_IP clientIp) 200) s)
    as Hrun.
  { unfold handleInfoRequest. step.
    destruct (bool_decide (Http.Header_Get (Http.Request_Header req) "X-Forwarded-For" = ""));
      rewrite Hip; reflexivity. }
  split.
  { unfold handleServer. rewrite bool_decide_eq_true_2 by exact Hinfo. exact Hrun. }
  split; [exact Hrun|].
  unfold Http.WriteHeader, Http.Writer_Header_Set.
  cbn [Http.wroteHeader Http.status Http.sentHeader Http.written Http.Writer_Header].
  rewrite Hfresh.
  cbn [Http.wroteHeader Http.status Http.sentHeader Http.written Http.Writer_Header].
  split; [done|]. split; [done|]. split; [apply Header_Get_Set|exact Hbody].
Qed.

(** C4. The address of a caller at an IPv6 address does not reach the
    answer.  Go writes the [RemoteAddr] of such a caller as [[host]:port],
    with colons in the host, and [handleInfoRequest] keeps what precedes
    the first colon: for an info request that no proxy forwarded, the
    [X-LANTERN-PUBLIC-IP] header of the answer (status 200, no body, the
    state untouched) holds an opening bracket and the first group of the
    address, without any colon, never the host. *)
Theorem handleServer_info_request_truncates_IPv6_caller env resp req s host port :
  Http.Header_Get (Http.Request_Header req) X_LANTERN_REQUEST_INFO <> "" ->
  Http.Header_Get (Http.Request_Header req) "X-Forwarded-For" = "" ->
  Http.RemoteAddr req = "[" +:+ host +:+ "]:" +:+ port ->
  GoStrings.Contains host ":" = true ->
  Http.wroteHeader resp = false ->
  exists resp' value,
    handleServer env resp req s = Returned resp' s /\
    Http.status resp' = 200 /\
    Http.written resp' = Http.written resp /\
    Http.Header_Get (Http.sentHeader resp') X_LANTERN_PUBLIC_IP = value /\
    value <> host /\
    GoStrings.Contains value ":" = false /\
    exists group, value = String "[" group.
Proof.
  intros Hinfo Hforwarded Haddr Hcolon Hfresh.
  destruct (first_Split_is_Some (Http.RemoteAddr req) ":") as [value Hvalue].
  destruct (first_Split_prefix _ _ _ Hvalue) as [Hnone Hprefix].
  exists (Http.WriteHeader (Http.Writer_Header_Set resp X_LANTERN_PUBLIC_IP value) 200), value.
  split.
  { unfold handleServer. rewrite bool_decide_eq_true_2 by exact Hinfo.
    unfold handleInfoRequest. step. rewrite Hforwarded.
    rewrite bool_decide_eq_true_2 by reflexivity. rewrite Hvalue. reflexivity. }
  unfold Http.WriteHeader, Http.Writer_Header_Set.
  cbn [Http.wroteHeader Http.status Http.sentHeader Http.written Http.Writer_Header].
  rewrite Hfresh.
  cbn [Http.wroteHeader Http.status Http.sentHeader Http.written Http.Writer_Header].
  split; [reflexivity|]. split; [reflexivity|]. split; [apply Header_Get_Set|].
  split; [intros ->; congruence|]. split; [exact Hnone|].
  rewrite Haddr in Hprefix. destruct value as [|c group].
  - destruct Hprefix as [Hp|[rest Hp]]; discriminate Hp.
  - exists group. destruct Hprefix as [Hp|[rest Hp]]; injection Hp as <- _; reflexivity.
Qed.

(** ** The response-rewriting round tripper *)

(** C6. [RoundTrip] of a [wrappedRoundTripper] after the inner round
    tripper has returned [(resp, err)]: with an error the pair is returned
    as it is, in the state the inner round tripper left, and the rewrite is
    not called; without an error the rewrite is called, once, and its result
    on the response is returned. *)
Theorem wrappedRoundTripper_RoundTrip_rewrites_on_success env rt req s resp err s1 :
  orig rt req s = Returned (resp, err) s1 ->
  let out := wrappedRoundTripper_RoundTrip env rt req s in
  match err, resp with
  | Some _, _ => out = Returned (resp, err) s1
  | None, Some r =>
      exists s', out = Returned (Some (rewrite rt r), None) s' /\
                 rewriteResponseCalls (trace s') =
                   rewriteResponseCalls (trace s1) ++ [CallRewriteResponse (Some r)]
  | None, None =>
      exists s', out = Panicked s' /\
                 rewriteResponseCalls (trace s') =
                   rewriteResponseCalls (trace s1) ++ [CallRewriteResponse None]
  end /\
  (rewriteResponseCalls (trace (stateOf out)) <> rewriteResponseCalls (trace s1)
   <-> err = None).
Proof.
  intros Horig. unfold wrappedRoundTripper_RoundTrip, dumpHeaders. step.
  rewrite Horig. cbv zeta.
  assert (forall (l : list Event) x, l ++ [x] <> l) as Hgrow.
  { intros l x Heq. apply (f_equal length) in Heq. rewrite length_app in Heq.
    cbn in Heq. lia. }
  destruct err as [e|]; step.
  - split; [reflexivity|]. cbn [stateOf]. split; [done|discriminate].
  - destruct resp as [r|]; step; [destruct (dumpheaders (flags env)); step|].
    all: split; [eexists; split; [reflexivity|]; calls|].
    all: split; [done|intros _]; calls; apply Hgrow.
Qed.

(** ** The downstream client of [package proxy] *)

(** C9. After [buildReverseProxy], [ServeHTTP] of a client hands a request
    whose method is [CONNECT] to [Intercept] of the client's
    [EnproxyConfig] and any other request to the reverse proxy, whose
    transport dials through enproxy; one handler is called, once. *)
Theorem Client_ServeHTTP_dispatches_on_method {E} (client : Proxy.Client E) cfg resp req :
  Proxy.EnproxyConfig client = Some cfg ->
  exists p tr,
    Proxy.reverseProxy (Proxy.buildReverseProxy client) = Some p /\
    Proxy.dialerOf (Proxy.Transport p) = Proxy.DialEnproxyConn /\
    Proxy.ServeHTTP (Proxy.buildReverseProxy client) resp req = Proxy.Returned tr /\
    List.filter Proxy.isHandlerCall tr =
      [if bool_decide (Http.Method req = Proxy.CONNECT)
       then Proxy.CallIntercept cfg resp req
       else Proxy.CallReverseProxy p resp req].
Proof.
  intros Hcfg. unfold Proxy.ServeHTTP, Proxy.buildReverseProxy.
  cbn [Proxy.reverseProxy Proxy.EnproxyConfig Proxy.config]. rewrite Hcfg.
  eexists. destruct (bool_decide (Http.Method req = Proxy.CONNECT));
    (eexists; split; [reflexivity|]); (split; [|by split]);
    unfold Proxy.withDumpHeaders; cbn [Proxy.Transport];
    by destruct (Proxy.ShouldDumpHeaders _).
Qed.

(** ** Runs on the sample inputs *)

Import Examples.

(** On a first run the key and the CA certificate are generated and
    written. *)
Lemma initCommonCerts_generates_key_and_root_witness :
  exists key cert s',
    initCommonCerts sampleEnv firstRun = Returned None s' /\
    pk s' = Some key /\ 2048 <= Keyman.Bits key /\
    caCert s' = Some cert /\
    Keyman.SelfSigned cert = true /\
    Keyman.SignedWith cert = key /\
    X509.IsCA (Keyman.X509 cert) = true /\
    X509.hasKeyUsage (X509.KeyUsage (Keyman.X509 cert)) X509.KeyUsageCertSign = true /\
    X509.NotAfter (Keyman.X509 cert) = TEN_YEARS_FROM_TODAY sampleEnv /\
    timeNow sampleEnv 3 + 3651 * nsPerDay <= X509.NotAfter (Keyman.X509 cert)
      <= timeNow sampleEnv 3 + 3653 * nsPerDay /\
    files s' !! PK_FILE sampleEnv = Some (PrivateKeyPEM key) /\
    files s' !! CA_CERT_FILE sampleEnv = Some (CertificatePEM cert).
Proof.
  exact (initCommonCerts_generates_key_and_root sampleEnv firstRun
           ltac:(vm_compute; reflexivity) ltac:(vm_compute; reflexivity)
           eq_refl eq_refl eq_refl eq_refl).
Defined.

(** A CA certificate that expires in ten days makes [initCommonCerts]
    fail. *)
Lemma initCommonCerts_expiring_root_is_error_witness :
  exists s',
    initCommonCerts sampleEnv expiringRootRun =
      Returned (Some (ErrorfNil "Unable to read CA cert, even though it exists")) s' /\
    files s' = files expiringRootRun /\ caCert s' = Some (rootUntil inTenDays) /\
    trace s' = trace expiringRootRun /\ trustStore s' = trustStore expiringRootRun.
Proof.
  exact (initCommonCerts_expiring_root_is_error sampleEnv expiringRootRun
           sampleKey (rootUntil inTenDays)
           ltac:(vm_compute; reflexivity) ltac:(vm_compute; reflexivity)
           ltac:(vm_compute; reflexivity)).
Defined.

(** A server certificate that expired a year ago is kept. *)
Lemma initServerCert_reuse_follows_root_expiry_witness :
  exists s',
    initServerCert sampleEnv "203.0.113.7" expiredLeafRun = Returned None s' /\
    serverCert s' = Some (leafUntil lastYear) /\
    files s' = files expiredLeafRun /\ trace s' = trace expiredLeafRun.
Proof.
  exact (initServerCert_reuse_follows_root_expiry sampleEnv "203.0.113.7"
           expiredLeafRun (leafUntil lastYear) (rootUntil inTenYears)
           ltac:(vm_compute; reflexivity) eq_refl ltac:(vm_compute; reflexivity)).
Defined.

(** Two certificates issued one second apart have the same serial number. *)
Lemma certificateFor_serial_collision_witness :
  exists cert1 s1 cert2 s2,
    certificateFor sampleEnv "a.example.com" (ONE_YEAR_FROM_TODAY sampleEnv) false
                   (Some (rootUntil inTenYears)) keyLoaded
      = Returned (Some cert1, None) s1 /\
    certificateFor sampleEnv "b.example.com" (ONE_YEAR_FROM_TODAY sampleEnv) false
                   (Some (rootUntil inTenYears)) s1
      = Returned (Some cert2, None) s2 /\
    X509.SerialNumber (Keyman.X509 cert1) = X509.SerialNumber (Keyman.X509 cert2).
Proof.
  exact (certificateFor_serial_collision sampleEnv keyLoaded sampleKey
           "a.example.com" "b.example.com"
           (ONE_YEAR_FROM_TODAY sampleEnv) (ONE_YEAR_FROM_TODAY sampleEnv)
           false false (Some (rootUntil inTenYears)) (Some (rootUntil inTenYears))
           eq_refl eq_refl ltac:(vm_compute; reflexivity)).
Defined.

(** A request to [localhost:8080] is returned by the director as it is. *)
Lemma clientProxy_Director_rewrites_unless_loopback_witness :
  exists s',
    clientProxy_Director sampleEnv (requestTo "GET" "localhost:8080" ∅) firstRun =
      Returned (requestTo "GET" "localhost:8080" ∅) s' /\
    rewriteRequestCalls (trace s') = rewriteRequestCalls (trace firstRun) ++ [].
Proof.
  exact (clientProxy_Director_rewrites_unless_loopback sampleEnv
           (requestTo "GET" "localhost:8080" ∅) firstRun "localhost"
           {| Net.IPAddr_IP := [127; 0; 0; 1]; Net.Zone := "" |}
           ltac:(vm_compute; reflexivity) ltac:(vm_compute; reflexivity)).
Defined.

(** A request to [example.com] is rewritten by the director. *)
Example clientProxy_Director_rewrites_remote :
  exists s',
    clientProxy_Director sampleEnv (requestTo "GET" "example.com" ∅) firstRun =
      Returned (RewriteRequest frontProtocol (requestTo "GET" "example.com" ∅)) s' /\
    rewriteRequestCalls (trace s') =
      [CallRewriteRequest ClientSide (requestTo "GET" "example.com" ∅)].
Proof. eexists. split; vm_compute; reflexivity. Qed.

(** A request to a host that does not resolve is sent as it is. *)
Lemma clientProxy_unresolved_host_not_rewritten_witness :
  (exists s',
     clientProxy_Director sampleEnv (requestTo "GET" "nowhere.invalid:80" ∅) firstRun =
       Returned (requestTo "GET" "nowhere.invalid:80" ∅) s' /\
     rewriteRequestCalls (trace s') = rewriteRequestCalls (trace firstRun)) /\
  (forall rw,
     let s' := stateOf (ReverseProxy_ServeHTTP (clientProxy sampleEnv) rw
                          (requestTo "GET" "nowhere.invalid:80" ∅) firstRun) in
     rewriteRequestCalls (trace s') = rewriteRequestCalls (trace firstRun) /\
     transportCalls (trace s') =
       transportCalls (trace firstRun) ++
       [CallTransport ClientSide (requestTo "GET" "nowhere.invalid:80" ∅)]).
Proof.
  exact (clientProxy_unresolved_host_not_rewritten sampleEnv
           (requestTo "GET" "nowhere.invalid:80" ∅) firstRun "nowhere.invalid"
           None (ExternalError "no such host")
           ltac:(vm_compute; reflexivity) ltac:(vm_compute; reflexivity)).
Defined.

(** An info request that came through a proxy is answered with the last
    address of [X-Forwarded-For]. *)
Lemma handleServer_answers_info_request_witness :
  exists clientIp resp',
    (if bool_decide (Http.Header_Get (Http.Request_Header infoRequest) "X-Forwarded-For" = "")
     then GoStrings.first (GoStrings.Split (Http.RemoteAddr infoRequest) ":")
     else GoStrings.final
            (GoStrings.Split
               (Http.Header_Get (Http.Request_Header infoRequest) "X-Forwarded-For") ","))
      = Some clientIp /\
    handleServer sampleEnv freshWriter infoRequest firstRun = Returned resp' firstRun /\
    handleInfoRequest freshWriter infoRequest firstRun = Returned resp' firstRun /\
    Http.wroteHeader resp' = true /\
    Http.status resp' = 200 /\
    Http.Header_Get (Http.sentHeader resp') X_LANTERN_PUBLIC_IP = clientIp /\
    Http.written resp' = [].
Proof.
  exact (handleServer_answers_info_request sampleEnv freshWriter infoRequest firstRun
           ltac:(vm_compute; discriminate) eq_refl eq_refl).
Defined.

Example handleServer_public_ip :
  exists resp',
    handleServer sampleEnv freshWriter infoRequest firstRun = Returned resp' firstRun /\
    Http.sentHeader resp' !! "X-Lantern-Public-Ip" = Some ["203.0.113.9"].
Proof. eexists. split; vm_compute; reflexivity. Qed.

(** A request without the info header goes through [serverProxy]. *)
Example handleServer_proxies_other_requests :
  transportCalls
    (trace (stateOf (handleServer sampleEnv freshWriter
                       (requestTo "GET" "example.com" ∅) firstRun))) =
  [CallTransport ServerSide (RewriteRequest frontProtocol (requestTo "GET" "example.com" ∅))].
Proof. vm_compute. reflexivity. Qed.

(** The response of a round trip that succeeds is rewritten. *)
Lemma wrappedRoundTripper_RoundTrip_rewrites_on_success_witness :
  let rt := withRewrite (RewriteResponse frontProtocol) (httpTransport sampleEnv ClientSide) in
  let req := requestTo "GET" "example.com" ∅ in
  let s1 := stateOf (httpTransport sampleEnv ClientSide req firstRun) in
  let out := wrappedRoundTripper_RoundTrip sampleEnv rt req firstRun in
  (exists s', out = Returned (Some (rewrite rt okResponse), None) s' /\
              rewriteResponseCalls (trace s') =
                rewriteResponseCalls (trace s1) ++ [CallRewriteResponse (Some okResponse)]) /\
  (rewriteResponseCalls (trace (stateOf out)) <> rewriteResponseCalls (trace s1)
   <-> @None error = None).
Proof.
  exact (wrappedRoundTripper_RoundTrip_rewrites_on_success sampleEnv
           (withRewrite (RewriteResponse frontProtocol) (httpTransport sampleEnv ClientSide))
           (requestTo "GET" "example.com" ∅) firstRun (Some okResponse) None
           (stateOf (httpTransport sampleEnv ClientSide (requestTo "GET" "example.com" ∅) firstRun))
           eq_refl).
Defined.

(** A round trip that fails is returned as it is. *)
Example wrappedRoundTripper_RoundTrip_error :
  let failing : RoundTripper := fun _ => mret (None, Some (ExternalError "dial tcp: timeout")) in
  wrappedRoundTripper_RoundTrip sampleEnv
    (withRewrite (RewriteResponse frontProtocol) failing)
    (requestTo "GET" "example.com" ∅) firstRun
  = Returned (None, Some (ExternalError "dial tcp: timeout")) firstRun.
Proof. reflexivity. Qed.

(** A [CONNECT] request is intercepted. *)
Lemma Client_ServeHTTP_dispatches_on_method_witness :
  exists p tr,
    Proxy.reverseProxy (Proxy.buildReverseProxy sampleClient) = Some p /\
    Proxy.dialerOf (Proxy.Transport p) = Proxy.DialEnproxyConn /\
    Proxy.ServeHTTP (Proxy.buildReverseProxy sampleClient) freshWriter
      (requestTo "CONNECT" "example.com:443" ∅) = Proxy.Returned tr /\
    List.filter Proxy.isHandlerCall tr =
      [if bool_decide (Http.Method (requestTo "CONNECT" "example.com:443" ∅) = Proxy.CONNECT)
       then Proxy.CallIntercept "enproxy" freshWriter (requestTo "CONNECT" "example.com:443" ∅)
       else Proxy.CallReverseProxy p freshWriter (requestTo "CONNECT" "example.com:443" ∅)].
Proof.
  exact (Client_ServeHTTP_dispatches_on_method sampleClient "enproxy" freshWriter
           (requestTo "CONNECT" "example.com:443" ∅) eq_refl).
Defined.

(** * Further properties

    ** Months and years of the calendar *)

Lemma month_cases m :
  1 <= m <= 12 ->
  m = 1 \/ m = 2 \/ m = 3 \/ m = 4 \/ m = 5 \/ m = 6 \/
  m = 7 \/ m = 8 \/ m = 9 \/ m = 10 \/ m = 11 \/ m = 12.
Proof. lia. Qed.

(** Settles a bound on the days between the firsts of two months of which
    the numbers are known. *)
Ltac month_arith y :=
  repeat match goal with
  | |- context [daysFromCivil (y + ?a) ?b 1] =>
      let a' := eval vm_compute in a in
      let b' := eval vm_compute in b in
      progress change (daysFromCivil (y + a) b 1) with (daysFromCivil (y + a') b' 1)
  end;
  unfold daysFromCivil; cbv zeta;
  repeat match goal with
  | |- context [?a <=? 2] =>
      let v := eval vm_compute in (a <=? 2) in change (a <=? 2) with v
  end;
  cbv iota; Z.div_mod_to_equations; lia.

Lemma daysFromCivil_next_month y m :
  1 <= m <= 12 ->
  28 <= daysFromCivil (y + m / 12) (m mod 12 + 1) 1 - daysFromCivil y m 1 <= 31.
Proof.
  intros Hm.
  destruct (month_cases m Hm)
    as [->|[->|[->|[->|[->|[->|[->|[->|[->|[->|[->| ->]]]]]]]]]]];
    month_arith y.
Qed.


Lemma daysFromCivil_year y m :
  365 <= daysFromCivil (y + 1) m 1 - daysFromCivil y m 1 <= 366.
Proof.
  unfold daysFromCivil. cbv zeta.
  destruct (m <=? 2).
  - replace (y + 1 - 1) with (y - 1 + 1) by lia. generalize (y - 1). clear. intros y.
    generalize ((153 * ((m + 9) mod 12) + 2) / 5). intros k.
    Z.div_mod_to_equations; lia.
  - generalize ((153 * ((m + 9) mod 12) + 2) / 5). intros k.
    Z.div_mod_to_equations; lia.
Qed.

(** Reduces a bound on [AddDate t years months days] to one on the days
    between two firsts of a month. *)
Ltac add_date t :=
  unfold AddDate;
  let y := fresh "y" in let m := fresh "m" in let d := fresh "d" in
  let E := fresh "E" in
  destruct (civilFromDays (t / nsPerDay)) as [[y m] d] eqn:E;
  apply civilFromDays_spec in E as (Hm & Hd & Hz);
  unfold Date; cbv zeta;
  rewrite daysFromCivil_day in Hz;
  pose proof (Z.div_mod t nsPerDay ltac:(unfold nsPerDay, nsPerSecond; lia)) as Ht.

Lemma AddDate_one_day t : AddDate t 0 0 1 = t + nsPerDay.
Proof.
  add_date t.
  replace ((m + 0 - 1) / 12) with 0 by (Z.div_mod_to_equations; lia).
  replace ((m + 0 - 1) mod 12 + 1) with m by (Z.div_mod_to_equations; lia).
  replace (y + 0 + 0) with y by lia.
  revert Ht Hz. generalize (daysFromCivil y m 1) (t mod nsPerDay) (t / nsPerDay).
  unfold nsPerDay, nsPerSecond. intros. lia.
Qed.

Lemma AddDate_one_month t :
  t + 28 * nsPerDay <= AddDate t 0 1 0 <= t + 31 * nsPerDay.
Proof.
  add_date t.
  replace (m + 1 - 1) with m by lia. replace (y + 0) with y by lia.
  pose proof (daysFromCivil_next_month y m Hm) as Hmonth.
  revert Ht Hz Hmonth.
  generalize (daysFromCivil (y + m / 12) (m mod 12 + 1) 1)
             (daysFromCivil y m 1) (t mod nsPerDay) (t / nsPerDay).
  unfold nsPerDay, nsPerSecond. intros. lia.
Qed.


Lemma AddDate_one_year t :
  t + 365 * nsPerDay <= AddDate t 1 0 0 <= t + 366 * nsPerDay.
Proof.
  add_date t.
  replace ((m + 0 - 1) / 12) with 0 by (Z.div_mod_to_equations; lia).
  replace ((m + 0 - 1) mod 12 + 1) with m by (Z.div_mod_to_equations; lia).
  replace (y + 1 + 0) with (y + 1) by lia.
  pose proof (daysFromCivil_year y m) as Hyear.
  revert Ht Hz Hyear.
  generalize (daysFromCivil (y + 1) m 1) (daysFromCivil y m 1)
             (t mod nsPerDay) (t / nsPerDay).
  unfold nsPerDay, nsPerSecond. intros. lia.
Qed.

Lemma TOMORROW_eq env : TOMORROW env = AddDate (timeNow env 0) 0 0 1.
Proof. reflexivity. Qed.

Lemma ONE_MONTH_FROM_TODAY_eq env :
  ONE_MONTH_FROM_TODAY env = AddDate (timeNow env 1) 0 1 0.
Proof. reflexivity. Qed.

Lemma ONE_YEAR_FROM_TODAY_eq env :
  ONE_YEAR_FROM_TODAY env = AddDate (timeNow env 2) 1 0 0.
Proof. reflexivity. Qed.

(** X1. With a clock that does not run backwards while the package
    variables are initialised, the four points in time are in order:
    [TOMORROW], [ONE_MONTH_FROM_TODAY], [ONE_YEAR_FROM_TODAY],
    [TEN_YEARS_FROM_TODAY]. *)
Theorem points_in_time_ordered env :
  timeNow env 0 <= timeNow env 1 ->
  timeNow env 1 <= timeNow env 2 ->
  timeNow env 2 <= timeNow env 3 ->
  TOMORROW env < ONE_MONTH_FROM_TODAY env /\
  ONE_MONTH_FROM_TODAY env < ONE_YEAR_FROM_TODAY env /\
  ONE_YEAR_FROM_TODAY env < TEN_YEARS_FROM_TODAY env.
Proof.
  intros H01 H12 H23.
  rewrite TOMORROW_eq, ONE_MONTH_FROM_TODAY_eq, ONE_YEAR_FROM_TODAY_eq,
    TEN_YEARS_FROM_TODAY_eq, AddDate_one_day.
  pose proof (AddDate_one_month (timeNow env 1)).
  pose proof (AddDate_one_year (timeNow env 2)).
  pose proof (AddDate_ten_years (timeNow env 3)).
  revert H H0 H1.
  generalize (AddDate (timeNow env 1) 0 1 0) (AddDate (timeNow env 2) 1 0 0)
             (AddDate (timeNow env 3) 10 0 0).
  unfold nsPerDay, nsPerSecond. intros. lia.
Qed.

(** ** Issued certificates *)

(** X2. What [certificateFor] issues is decided by the issuer: without one
    the certificate is self-signed and a CA whatever [isCA] says, and
    [isCA] only adds certificate signing to its key usage; with one it is
    no CA and cannot sign certificates, whatever [isCA] says.  Either way it
    carries the name and the end of validity asked for, key encipherment and
    digital signature, and a serial number below 1000000000. *)
Theorem certificateFor_issuer_decides env s key name validUntil isCA issuer :
  pk s = Some key ->
  signErr env = None ->
  exists cert s',
    certificateFor env name validUntil isCA issuer s = Returned (Some cert, None) s' /\
    Keyman.SelfSigned cert = (if issuer is Some _ then false else true) /\
    X509.IsCA (Keyman.X509 cert) = (if issuer is Some _ then false else true) /\
    X509.hasKeyUsage (X509.KeyUsage (Keyman.X509 cert)) X509.KeyUsageCertSign
      = (if issuer is Some _ then false else isCA) /\
    X509.hasKeyUsage (X509.KeyUsage (Keyman.X509 cert)) X509.KeyUsageKeyEncipherment = true /\
    X509.hasKeyUsage (X509.KeyUsage (Keyman.X509 cert)) X509.KeyUsageDigitalSignature = true /\
    0 <= X509.SerialNumber (Keyman.X509 cert) < 1000000000 /\
    X509.CommonName (Keyman.X509 cert) = name /\
    X509.NotAfter (Keyman.X509 cert) = validUntil /\
    Keyman.SignedWith cert = key.
Proof.
  intros Hpk Hsign.
  destruct (certificateFor_returns env s key name validUntil isCA issuer Hpk Hsign)
    as (cert & s' & Hrun & Hserial & Hname & Hna & Hkey & Hself & Hisca & Husage & _).
  exists cert, s'. split; [exact Hrun|]. split; [exact Hself|]. split; [exact Hisca|].
  rewrite Husage, Hserial.
  split; [by destruct issuer, isCA|]. split; [by destruct issuer, isCA|].
  split; [by destruct issuer, isCA|].
  split; [apply Z.mod_pos_bound; reflexivity|]. done.
Qed.


(** ** The key and the CA certificate across runs *)

Lemma certificateFor_outcome env s key name validUntil isCA issuer :
  pk s = Some key ->
  exists r s',
    certificateFor env name validUntil isCA issuer s = Returned r s' /\
    files s' = files s /\ pk s' = pk s /\ caCert s' = caCert s /\
    serverCert s' = serverCert s /\ trustStore s' = trustStore s /\
    trace s' = trace s /\
    ((exists e, r = (None, Some e)) \/
     (exists cert, r = (Some cert, None) /\
                   X509.NotAfter (Keyman.X509 cert) = validUntil /\
                   X509.CommonName (Keyman.X509 cert) = name)).
Proof.
  intros Hpk. destruct (signErr env) as [e|] eqn:Hsign.
  - unfold certificateFor, PrivateKey_Certificate. step. rewrite Hpk, Hsign. step.
    eexists _, _. split; [reflexivity|]. cbn [files pk caCert serverCert trustStore trace].
    repeat split; eauto.
  - destruct (certificateFor_returns env s key name validUntil isCA issuer Hpk Hsign)
      as (cert & s' & Hrun & _ & Hname & Hna & _ & _ & _ & _ & Hf & Hts & Htr & Hpk' & Hca & Hsc & _).
    exists (Some cert, None), s'. repeat split; eauto.
Qed.

Lemma initCommonCerts_caCert_outcome env s1 key :
  pk s1 = Some key ->
  exists r s',
    initCommonCerts_caCert env s1 = Returned r s' /\
    pk s' = Some key /\ serverCert s' = serverCert s1 /\
    (files s' = files s1 \/
     files s1 !! CA_CERT_FILE env = None /\
     exists cert, files s' = <[CA_CERT_FILE env := CertificatePEM cert]> (files s1)) /\
    (r = None ->
     exists cert,
       caCert s' = Some cert /\
       files s' !! CA_CERT_FILE env = Some (CertificatePEM cert) /\
       (Before (X509.NotAfter (Keyman.X509 cert)) (ONE_MONTH_FROM_TODAY env) = false \/
        X509.NotAfter (Keyman.X509 cert) = TEN_YEARS_FROM_TODAY env)).
Proof.
  intros Hpk. unfold initCommonCerts_caCert, LoadCertificateFromFile. step.
  destruct (files s1 !! CA_CERT_FILE env) as [[k|c|why]|] eqn:Hfile; step.
  - eexists _, _. split; [reflexivity|]. cbn [files pk serverCert]. by repeat (split; [by auto|]).
  - destruct (Before _ _) eqn:Hexp; step.
    + eexists _, _. split; [reflexivity|]. cbn [files pk serverCert]. by repeat (split; [by auto|]).
    + match goal with |- context [initCommonCerts_install env ?st] =>
        destruct (initCommonCerts_install_returns env st c eq_refl)
          as (s' & -> & Hf & Hp & Hc & Hs)
      end.
      exists None, s'. split; [reflexivity|]. rewrite Hf, Hp, Hc, Hs.
      cbn [files pk caCert serverCert]. split; [exact Hpk|]. split; [done|].
      split; [by left|]. intros _. exists c. by eauto.
  - eexists _, _. split; [reflexivity|]. cbn [files pk serverCert]. by repeat (split; [by auto|]).
  - match goal with |- context [certificateFor env ?n ?v ?c ?i ?st] =>
      destruct (certificateFor_outcome env st key n v c i Hpk)
        as (r & s2 & -> & Hf2 & Hp2 & _ & Hs2 & _ & _ & [[e ->]|(cert & -> & Hna & _)])
    end; step.
    + eexists _, _. split; [reflexivity|]. cbn [files pk serverCert] in *.
      rewrite Hf2, Hp2, Hs2. by repeat (split; [by auto|]).
    + unfold Certificate_WriteToFile, writeToFile.
      destruct (writeErr env (CA_CERT_FILE env)); step.
      * eexists _, _. split; [reflexivity|]. cbn [files pk serverCert] in *.
        rewrite Hf2, Hp2, Hs2. by repeat (split; [by auto|]).
      * match goal with |- context [initCommonCerts_install env ?st] =>
          destruct (initCommonCerts_install_returns env st cert eq_refl)
            as (s' & -> & Hf & Hp & Hc & Hs)
        end.
        exists None, s'. split; [reflexivity|]. rewrite Hf, Hp, Hc, Hs.
        cbn [files pk caCert serverCert] in *. rewrite Hf2, Hp2, Hs2.
        split; [exact Hpk|]. split; [done|]. split; [right; eauto|].
        intros _. exists cert. split; [done|]. split; [apply lookup_insert_eq|by right].
Qed.

Lemma initCommonCerts_outcome env s :
  exists r s',
    initCommonCerts env s = Returned r s' /\
    serverCert s' = serverCert s /\
    (forall path c, files s !! path = Some c -> files s' !! path = Some c) /\
    (forall path, path <> PK_FILE env -> path <> CA_CERT_FILE env ->
                  files s' !! path = files s !! path) /\
    (r = None ->
     exists key cert,
       pk s' = Some key /\ caCert s' = Some cert /\
       files s' !! PK_FILE env = Some (PrivateKeyPEM key) /\
       files s' !! CA_CERT_FILE env = Some (CertificatePEM cert) /\
       (Before (X509.NotAfter (Keyman.X509 cert)) (ONE_MONTH_FROM_TODAY env) = false \/
        X509.NotAfter (Keyman.X509 cert) = TEN_YEARS_FROM_TODAY env)).
Proof.
  pose proof (PK_FILE_neq_CA_CERT_FILE env) as Hne.
  unfold initCommonCerts, LoadPKFromFile. step.
  destruct (files s !! PK_FILE env) as [[k|c|why]|] eqn:Hfile; step.
  - match goal with |- context [initCommonCerts_caCert env ?st] =>
      destruct (initCommonCerts_caCert_outcome env st k eq_refl)
        as (r & s' & -> & Hp & Hs & Hfiles & Hok)
    end.
    exists r, s'. split; [reflexivity|]. cbn [files serverCert] in *.
    split; [exact Hs|].
    destruct Hfiles as [Hsame|(Hnone & cert & Hins)].
    + rewrite Hsame in *. split; [done|]. split; [done|].
      intros Hr. destruct (Hok Hr) as (cert & ? & ? & ?). exists k, cert. by eauto.
    + rewrite Hins in *. split.
      { intros path c Hc. rewrite lookup_insert_ne; [done|congruence]. }
      split; [intros path _ Hp2; by rewrite lookup_insert_ne|].
      intros Hr. destruct (Hok Hr) as (cert' & ? & ? & ?). exists k, cert'.
      split; [done|]. split; [done|]. split; [|done].
      rewrite lookup_insert_ne; [done|congruence].
  - eexists _, _. split; [reflexivity|]. cbn [files serverCert]. by repeat (split; [by auto|]).
  - eexists _, _. split; [reflexivity|]. cbn [files serverCert]. by repeat (split; [by auto|]).
  - unfold GeneratePK. step. destruct (generateErr env); step.
    { eexists _, _. split; [reflexivity|]. cbn [files serverCert]. by repeat (split; [by auto|]). }
    unfold PrivateKey_WriteToFile, writeToFile.
    destruct (writeErr env (PK_FILE env)); step.
    { eexists _, _. split; [reflexivity|]. cbn [files serverCert]. by repeat (split; [by auto|]). }
    set (key := {| Keyman.Bits := 2048; Keyman.Material := keyMaterial env |}).
    match goal with |- context [initCommonCerts_caCert env ?st] =>
      destruct (initCommonCerts_caCert_outcome env st key eq_refl)
        as (r & s' & -> & Hp & Hs & Hfiles & Hok)
    end.
    exists r, s'. split; [reflexivity|]. cbn [files serverCert] in *.
    split; [exact Hs|].
    destruct Hfiles as [Hsame|(Hnone & cert & Hins)].
    + rewrite Hsame in *. split.
      { intros path c Hc. rewrite lookup_insert_ne; [done|congruence]. }
      split; [intros path Hp1 _; by rewrite lookup_insert_ne|].
      intros Hr. destruct (Hok Hr) as (cert & ? & ? & ?). exists key, cert.
      split; [done|]. split; [done|]. split; [apply lookup_insert_eq|done].
    + rewrite Hins in *. rewrite lookup_insert_ne in Hnone by done. split.
      { intros path c Hc. rewrite !lookup_insert_ne; [done|congruence|congruence]. }
      split; [intros path Hp1 Hp2; by rewrite !lookup_insert_ne|].
      intros Hr. destruct (Hok Hr) as (cert' & ? & ? & ?). exists key, cert'.
      split; [done|]. split; [done|]. split; [|done].
      rewrite lookup_insert_ne by congruence. apply lookup_insert_eq.
Qed.

Lemma initCommonCerts_loads env s key cert :
  files s !! PK_FILE env = Some (PrivateKeyPEM key) ->
  files s !! CA_CERT_FILE env = Some (CertificatePEM cert) ->
  Before (X509.NotAfter (Keyman.X509 cert)) (ONE_MONTH_FROM_TODAY env) = false ->
  exists s',
    initCommonCerts env s = Returned None s' /\
    pk s' = Some key /\ caCert s' = Some cert /\
    files s' = files s /\ serverCert s' = serverCert s.
Proof.
  intros Hpk Hca Hexp.
  unfold initCommonCerts, LoadPKFromFile. step. rewrite Hpk. step.
  unfold initCommonCerts_caCert, LoadCertificateFromFile. step.
  rewrite Hca. step. rewrite Hexp. step.
  match goal with |- context [initCommonCerts_install env ?st] =>
    destruct (initCommonCerts_install_returns env st cert eq_refl)
      as (s' & -> & Hf & Hp & Hc & Hs)
  end.
  exists s'. split; [reflexivity|]. rewrite Hf, Hp, Hc, Hs. done.
Qed.

(** X4. When [initCommonCerts] returns [nil], the key and the CA
    certificate are set, and the key file and the certificate file hold
    exactly them; the server certificate is as before. *)
Theorem initCommonCerts_success_persists env s s' :
  initCommonCerts env s = Returned None s' ->
  exists key cert,
    pk s' = Some key /\ caCert s' = Some cert /\
    files s' !! PK_FILE env = Some (PrivateKeyPEM key) /\
    files s' !! CA_CERT_FILE env = Some (CertificatePEM cert) /\
    serverCert s' = serverCert s.
Proof.
  intros Hrun.
  destruct (initCommonCerts_outcome env s) as (r & s1 & Hrun1 & Hsc & _ & _ & Hok).
  rewrite Hrun in Hrun1. injection Hrun1 as <- <-.
  destruct (Hok eq_refl) as (key & cert & ? & ? & ? & ? & _).
  exists key, cert. done.
Qed.

(** X5. A persisted key and a persisted CA certificate that does not
    expire before [ONE_MONTH_FROM_TODAY] are used as they are: nothing is
    generated and no file is written. *)
Theorem initCommonCerts_reuses_persisted env s key cert :
  files s !! PK_FILE env = Some (PrivateKeyPEM key) ->
  files s !! CA_CERT_FILE env = Some (CertificatePEM cert) ->
  Before (X509.NotAfter (Keyman.X509 cert)) (ONE_MONTH_FROM_TODAY env) = false ->
  exists s',
    initCommonCerts env s = Returned None s' /\
    pk s' = Some key /\ caCert s' = Some cert /\
    files s' = files s /\ serverCert s' = serverCert s.
Proof. apply initCommonCerts_loads. Qed.

(** X6. What one run of [initCommonCerts] leaves in the configuration
    directory is what the next run, with the same directory, loads: as long
    as the certificate does not expire before the [ONE_MONTH_FROM_TODAY] of
    that run, it ends with the same key and the same certificate and writes
    nothing. *)
Theorem initCommonCerts_next_run_loads_the_same env env' s s1 cert store :
  initCommonCerts env s = Returned None s1 ->
  configDir (flags env') = configDir (flags env) ->
  caCert s1 = Some cert ->
  Before (X509.NotAfter (Keyman.X509 cert)) (ONE_MONTH_FROM_TODAY env') = false ->
  exists s2,
    initCommonCerts env' (initialState (files s1) store) = Returned None s2 /\
    pk s2 = pk s1 /\ caCert s2 = caCert s1 /\ files s2 = files s1.
Proof.
  intros Hrun Hdir Hcert Hexp.
  destruct (initCommonCerts_outcome env s) as (r & s1' & Hrun1 & _ & _ & _ & Hok).
  rewrite Hrun in Hrun1. injection Hrun1 as <- <-.
  destruct (Hok eq_refl) as (key & cert' & Hpk & Hca & Hfpk & Hfca & _).
  rewrite Hcert in Hca. injection Hca as <-.
  assert (PK_FILE env' = PK_FILE env) as Hp
    by (unfold PK_FILE, inConfigDir; by rewrite Hdir).
  assert (CA_CERT_FILE env' = CA_CERT_FILE env) as Hc
    by (unfold CA_CERT_FILE, inConfigDir; by rewrite Hdir).
  destruct (initCommonCerts_loads env' (initialState (files s1) store) key cert)
    as (s2 & Hrun2 & Hpk2 & Hca2 & Hf2 & _).
  { cbn [initialState files]. by rewrite Hp. }
  { cbn [initialState files]. by rewrite Hc. }
  { exact Hexp. }
  exists s2. rewrite Hpk, Hcert. done.
Qed.

(** X7. [initCommonCerts] never overwrites or removes a file: whatever a
    path holds before the run it holds after it, paths other than the key
    file and the certificate file are not touched at all, and the server
    certificate stays as it is. *)
Theorem initCommonCerts_never_overwrites env s path content :
  files s !! path = Some content ->
  let s' := stateOf (initCommonCerts env s) in
  files s' !! path = Some content /\
  (forall other, other <> PK_FILE env -> other <> CA_CERT_FILE env ->
                 files s' !! other = files s !! other) /\
  serverCert s' = serverCert s.
Proof.
  intros Hfile.
  destruct (initCommonCerts_outcome env s) as (r & s1 & -> & Hsc & Hkeep & Hother & _).
  cbn [stateOf]. split; [by apply Hkeep|]. split; [exact Hother|exact Hsc].
Qed.

(** X8. A key file that exists but cannot be read is an error: no key is
    generated, the CA certificate is not looked at, and files, trust store
    and log stay as they are. *)
Theorem initCommonCerts_unreadable_key_is_error env s why :
  files s !! PK_FILE env = Some (Unreadable why) ->
  exists s',
    initCommonCerts env s =
      Returned (Some (Errorf "Unable to read private key, even though it exists"
                             (ExternalError why))) s' /\
    pk s' = None /\ caCert s' = caCert s /\ files s' = files s /\
    trustStore s' = trustStore s /\ trace s' = trace s /\ ticks s' = ticks s.
Proof.
  intros Hfile. unfold initCommonCerts, LoadPKFromFile. step. rewrite Hfile. step.
  eexists. split; [reflexivity|]. done.
Qed.

(** ** The server certificate *)

Lemma initServerCert_keeps env host s leaf ca :
  files s !! SERVER_CERT_FILE env = Some (CertificatePEM leaf) ->
  caCert s = Some ca ->
  Before (X509.NotAfter (Keyman.X509 ca)) (ONE_MONTH_FROM_TODAY env) = false ->
  exists s',
    initServerCert env host s = Returned None s' /\
    serverCert s' = Some leaf /\ files s' = files s /\ trace s' = trace s.
Proof.
  intros Hleaf Hca Hroot.
  unfold initServerCert, LoadCertificateFromFile. step.
  rewrite Hleaf. step. rewrite Hca. step. rewrite Hroot. step.
  eexists. split; [reflexivity|]. by repeat split.
Qed.

(** X9. Without a persisted server certificate, [initServerCert] issues
    one for the host under the name of the CA certificate, valid until
    [ONE_YEAR_FROM_TODAY], and writes it to the server certificate file.
    Although [certificateFor] is called with [isCA] set, the certificate is
    no CA and its key usage lacks certificate signing. *)
Theorem initServerCert_issues_leaf env host s ca key :
  files s !! SERVER_CERT_FILE env = None ->
  caCert s = Some ca ->
  pk s = Some key ->
  signErr env = None ->
  writeErr env (SERVER_CERT_FILE env) = None ->
  exists cert s',
    initServerCert env host s = Returned None s' /\
    serverCert s' = Some cert /\
    X509.CommonName (Keyman.X509 cert) = host /\
    Keyman.IssuerName cert = X509.CommonName (Keyman.X509 ca) /\
    Keyman.SelfSigned cert = false /\
    Keyman.SignedWith cert = key /\
    X509.IsCA (Keyman.X509 cert) = false /\
    X509.hasKeyUsage (X509.KeyUsage (Keyman.X509 cert)) X509.KeyUsageCertSign = false /\
    X509.NotAfter (Keyman.X509 cert) = ONE_YEAR_FROM_TODAY env /\
    files s' = <[SERVER_CERT_FILE env := CertificatePEM cert]> (files s) /\
    pk s' = Some key /\ caCert s' = Some ca.
Proof.
  intros Hfile Hca Hpk Hsign Hwrite.
  unfold initServerCert, LoadCertificateFromFile, certificateFor,
    PrivateKey_Certificate, Certificate_WriteToFile, writeToFile. step.
  rewrite Hfile. step. rewrite Hca. step. rewrite Hpk, Hsign. step.
  rewrite Hwrite. step.
  eexists _, _. split; [reflexivity|].
  cbn [serverCert files pk caCert Keyman.X509 Keyman.IssuerName Keyman.SelfSigned
       Keyman.SignedWith X509.CommonName X509.IsCA X509.KeyUsage X509.NotAfter].
  rewrite ?Hpk, ?Hca. by repeat split.
Qed.

(** X10. [initServerCert] leaves the key, the CA certificate and the trust
    store alone, makes no call to the trust store, and touches no file but
    the server certificate file, however it ends. *)
Theorem initServerCert_touches_only_the_server_cert env host s :
  let s' := stateOf (initServerCert env host s) in
  pk s' = pk s /\ caCert s' = caCert s /\ trustStore s' = trustStore s /\
  trustStoreCalls (trace s') = trustStoreCalls (trace s) /\
  (forall path, path <> SERVER_CERT_FILE env -> files s' !! path = files s !! path).
Proof.
  unfold initServerCert, LoadCertificateFromFile, certificateFor,
    PrivateKey_Certificate, Certificate_WriteToFile, writeToFile. step.
  destruct (files s !! SERVER_CERT_FILE env) as [[k|c|why]|]; step;
    destruct (caCert s) as [ca|] eqn:Hca; step;
    try destruct (Before _ _); step;
    destruct (pk s) as [key|] eqn:Hpk; step;
    destruct (signErr env); step;
    try (destruct (writeErr env (SERVER_CERT_FILE env)); step);
    cbn [stateOf pk caCert trustStore trace files];
    rewrite ?trustStoreCalls_Printf;
    (repeat split; try done);
    intros path Hpath; by rewrite lookup_insert_ne.
Qed.

(** X11. In one process, once [initCommonCerts] has returned [nil], a
    server certificate that loads is kept by [initServerCert] whatever its
    own validity: with a clock that does not run backwards while the
    package variables are initialised, the CA certificate never expires
    before [ONE_MONTH_FROM_TODAY] at that point. *)
Theorem initServerCert_after_initCommonCerts_keeps env host s s1 leaf :
  initCommonCerts env s = Returned None s1 ->
  timeNow env 1 <= timeNow env 3 ->
  files s1 !! SERVER_CERT_FILE env = Some (CertificatePEM leaf) ->
  exists s2,
    initServerCert env host s1 = Returned None s2 /\
    serverCert s2 = Some leaf /\ files s2 = files s1.
Proof.
  intros Hrun Hclock Hleaf.
  destruct (initCommonCerts_outcome env s) as (r & s1' & Hrun1 & _ & _ & _ & Hok).
  rewrite Hrun in Hrun1. injection Hrun1 as <- <-.
  destruct (Hok eq_refl) as (key & ca & _ & Hca & _ & _ & Hvalid).
  assert (Before (X509.NotAfter (Keyman.X509 ca)) (ONE_MONTH_FROM_TODAY env) = false)
    as Hroot.
  { destruct Hvalid as [Hvalid|Hfresh]; [exact Hvalid|].
    rewrite Hfresh. unfold Before. apply Z.ltb_ge.
    rewrite ONE_MONTH_FROM_TODAY_eq, TEN_YEARS_FROM_TODAY_eq.
    pose proof (AddDate_one_month (timeNow env 1)) as Hmonth.
    pose proof (AddDate_ten_years (timeNow env 3)) as Hyears.
    revert Hmonth Hyears.
    generalize (AddDate (timeNow env 1) 0 1 0) (AddDate (timeNow env 3) 10 0 0).
    unfold nsPerDay, nsPerSecond. intros. lia. }
  destruct (initServerCert_keeps env host s1 leaf ca Hleaf Hca Hroot)
    as (s2 & ? & ? & ? & _).
  by exists s2.
Qed.

(** ** Installing the CA certificate *)

Lemma sameCommonName_refl cert : sameCommonName cert cert = true.
Proof. unfold sameCommonName. by apply bool_decide_eq_true. Qed.

Lemma install_once env s cert :
  caCert s = Some cert ->
  isInstalledErr env = None ->
  addAsTrustedRootErr env = None ->
  exists s1,
    installCACertToTrustStoreIfNecessary env s = Returned None s1 /\
    caCert s1 = Some cert /\
    (isDownstream env || install (flags env) = true ->
     existsb (sameCommonName cert) (trustStore s1) = true) /\
    (isDownstream env || install (flags env) = false \/
     existsb (sameCommonName cert) (trustStore s) = true ->
     trustStore s1 = trustStore s /\ addCalls (trace s1) = addCalls (trace s)).
Proof.
  intros Hca Hcheck Hadd.
  unfold installCACertToTrustStoreIfNecessary, Certificate_IsInstalled,
    Certificate_AddAsTrustedRoot.
  destruct (isDownstream env || install (flags env)); step; rewrite ?Hca; step;
    rewrite ?Hcheck; step.
  - destruct (existsb (sameCommonName cert) (trustStore s)) eqn:Hhave;
      cbn [andb negb]; step; rewrite ?Hca; step; rewrite ?Hadd; step;
      (eexists; split; [reflexivity|]); cbn [caCert trustStore trace].
    + split; [done|]. split; [done|]. intros _. split; [done|calls].
    + split; [done|]. split.
      * intros _. rewrite existsb_app. cbn [existsb].
        by rewrite sameCommonName_refl, orb_true_r.
      * by intros [?|?].
  - cbn [andb]. step. eexists. split; [reflexivity|]. cbn [caCert trustStore trace].
    split; [done|]. split; [done|]. intros _. split; [done|calls].
Qed.

(** X12. Installing is idempotent: when the trust store works, a second
    [installCACertToTrustStoreIfNecessary] finds the certificate installed
    (if it is needed at all), adds nothing and calls no
    [AddAsTrustedRoot]. *)
Theorem installCACertToTrustStoreIfNecessary_twice env s cert :
  caCert s = Some cert ->
  isInstalledErr env = None ->
  addAsTrustedRootErr env = None ->
  exists s1 s2,
    installCACertToTrustStoreIfNecessary env s = Returned None s1 /\
    installCACertToTrustStoreIfNecessary env s1 = Returned None s2 /\
    (isDownstream env || install (flags env) = true ->
     existsb (sameCommonName cert) (trustStore s1) = true) /\
    trustStore s2 = trustStore s1 /\
    addCalls (trace s2) = addCalls (trace s1).
Proof.
  intros Hca Hcheck Hadd.
  destruct (install_once env s cert Hca Hcheck Hadd) as (s1 & Hrun1 & Hca1 & Hin1 & _).
  destruct (install_once env s1 cert Hca1 Hcheck Hadd) as (s2 & Hrun2 & _ & _ & Hsame).
  exists s1, s2. split; [exact Hrun1|]. split; [exact Hrun2|]. split; [exact Hin1|].
  apply Hsame. destruct (isDownstream env || install (flags env)); [right|left]; auto.
Qed.

(** X13. When the trust store cannot be checked,
    [installCACertToTrustStoreIfNecessary] returns the error of the check,
    wrapped, and does not try to add the certificate. *)
Theorem installCACertToTrustStoreIfNecessary_check_fails env s cert e :
  caCert s = Some cert ->
  isDownstream env || install (flags env) = true ->
  isInstalledErr env = Some e ->
  exists s',
    installCACertToTrustStoreIfNecessary env s =
      Returned (Some (Errorf "Unable to check if certificate is installed" e)) s' /\
    trace s' = trace s ++ [CallIsInstalled cert] /\
    trustStore s' = trustStore s.
Proof.
  intros Hca Hneed Hcheck.
  unfold installCACertToTrustStoreIfNecessary, Certificate_IsInstalled.
  rewrite Hneed. step. rewrite Hca. step. rewrite Hcheck. step.
  eexists. split; [reflexivity|]. done.
Qed.

(** ** Addresses *)

Lemma Contains_append a b sep :
  GoStrings.Contains (a +:+ b) sep = GoStrings.Contains a sep || GoStrings.Contains b sep.
Proof.
  induction a as [|c a IH]; [done|].
  change (String c a +:+ b) with (String c (a +:+ b)).
  cbn [GoStrings.Contains]. by rewrite IH, orb_assoc.
Qed.

(** X14. The address that [handleInfoRequest] puts into the
    [X-LANTERN-PUBLIC-IP] header is what follows the last comma of
    [X-Forwarded-For], or the whole header without a comma; when that
    header is empty or missing it is what precedes the first colon of
    [RemoteAddr].  The state is not touched. *)
Theorem handleInfoRequest_address resp req s :
  exists clientIp resp',
    handleInfoRequest resp req s = Returned resp' s /\
    Http.Header_Get (Http.Writer_Header resp') X_LANTERN_PUBLIC_IP = clientIp /\
    let forwarded := Http.Header_Get (Http.Request_Header req) "X-Forwarded-For" in
    if bool_decide (forwarded = "")
    then GoStrings.Contains clientIp ":" = false /\
         (Http.RemoteAddr req = clientIp \/
          exists rest, Http.RemoteAddr req = clientIp +:+ String ":" rest)
    else GoStrings.Contains clientIp "," = false /\
         (forwarded = clientIp \/
          exists front, forwarded = front +:+ String "," clientIp).
Proof.
  unfold handleInfoRequest. step. cbv zeta.
  destruct (bool_decide (Http.Header_Get (Http.Request_Header req) "X-Forwarded-For" = "")).
  - destruct (first_Split_is_Some (Http.RemoteAddr req) ":") as [ip Hip].
    rewrite Hip. exists ip. eexists. split; [reflexivity|].
    split.
    + unfold Http.WriteHeader, Http.Writer_Header_Set.
      destruct (Http.wroteHeader _); cbn [Http.Writer_Header]; apply Header_Get_Set.
    + by apply first_Split_prefix.
  - destruct (final_Split_is_Some
                (Http.Header_Get (Http.Request_Header req) "X-Forwarded-For") ",")
      as [ip Hip].
    rewrite Hip. exists ip. eexists. split; [reflexivity|].
    split.
    + unfold Http.WriteHeader, Http.Writer_Header_Set.
      destruct (Http.wroteHeader _); cbn [Http.Writer_Header]; apply Header_Get_Set.
    + by apply final_Split_suffix.
Qed.

(** X15. [hostIncludingPort] always names a port: a host with a colon is
    returned as it is, any other gets [:443]. *)
Theorem hostIncludingPort_names_a_port req :
  GoStrings.Contains (hostIncludingPort req) ":" = true /\
  (hostIncludingPort req = Http.Host req \/
   GoStrings.Contains (Http.Host req) ":" = false /\
   hostIncludingPort req = Http.Host req +:+ ":443").
Proof.
  unfold hostIncludingPort. cbv zeta.
  destruct (GoStrings.Contains (Http.Host req) ":") eqn:Hport; cbn [negb].
  - split; [exact Hport|by left].
  - split; [|by right]. rewrite Contains_append. cbn. apply orb_true_r.
Qed.

(** ** The proxies *)

(** X16. A request without a value in [X-Lantern-Request-Info] goes
    through [serverProxy]: the server protocol rewrites it, once, whatever
    its host, and the transport is called, once, with the rewritten
    request. *)
Theorem handleServer_forwards_rewritten env resp req s :
  Http.Header_Get (Http.Request_Header req) X_LANTERN_REQUEST_INFO = "" ->
  let s' := stateOf (handleServer env resp req s) in
  rewriteRequestCalls (trace s') =
    rewriteRequestCalls (trace s) ++ [CallRewriteRequest ServerSide req] /\
  transportCalls (trace s') =
    transportCalls (trace s) ++
    [CallTransport ServerSide (RewriteRequest (serverProtocol env) req)].
Proof.
  intros Hinfo. unfold handleServer. rewrite Hinfo.
  rewrite bool_decide_eq_false_2 by (intros H; by apply H).
  unfold ReverseProxy_ServeHTTP, serverProxy. cbn [Director Transport].
  unfold serverProxy_Director, dumpHeaders, wrappedRoundTripper_RoundTrip,
    withRewrite, httpTransport, dumpHeaders.
  cbn [orig rewrite]. step.
  destruct (dumpheaders (flags env)); step;
    destruct (transportRoundTrip env ServerSide _) as [[r|] [e'|]]; step;
    split; calls.
Qed.


(** X18. [withDumpHeaders] does not change what a round tripper returns:
    the response and the error are those of the wrapped round tripper, a
    panic needs a [nil] response with a [nil] error, and with the flag unset
    the round tripper is the wrapped one. *)
Theorem withDumpHeaders_keeps_result exchange dump rt req resp err dumps :
  Proxy.RoundTrip exchange rt req = Proxy.TripReturned resp err dumps ->
  match Proxy.RoundTrip exchange (Proxy.withDumpHeaders dump rt) req with
  | Proxy.TripReturned resp' err' _ => resp' = resp /\ err' = err
  | Proxy.TripPanicked _ => dump = true /\ resp = None /\ err = None
  end /\
  (dump = false -> Proxy.withDumpHeaders dump rt = rt).
Proof.
  intros Hrun. unfold Proxy.withDumpHeaders.
  destruct dump; cbn [negb]; [|by rewrite Hrun].
  cbn [Proxy.RoundTrip]. rewrite Hrun.
  split; [|discriminate]. by destruct err, resp.
Qed.

(** ** Further runs on the sample inputs *)

Lemma points_in_time_ordered_witness :
  TOMORROW sampleEnv < ONE_MONTH_FROM_TODAY sampleEnv /\
  ONE_MONTH_FROM_TODAY sampleEnv < ONE_YEAR_FROM_TODAY sampleEnv /\
  ONE_YEAR_FROM_TODAY sampleEnv < TEN_YEARS_FROM_TODAY sampleEnv.
Proof.
  exact (points_in_time_ordered sampleEnv
           ltac:(vm_compute; discriminate) ltac:(vm_compute; discriminate)
           ltac:(vm_compute; discriminate)).
Defined.

Lemma certificateFor_issuer_decides_witness :
  exists cert s',
    certificateFor sampleEnv "203.0.113.7" (ONE_YEAR_FROM_TODAY sampleEnv) true
                   (Some (rootUntil inTenYears)) keyLoaded
      = Returned (Some cert, None) s' /\
    Keyman.SelfSigned cert = false /\
    X509.IsCA (Keyman.X509 cert) = false /\
    X509.hasKeyUsage (X509.KeyUsage (Keyman.X509 cert)) X509.KeyUsageCertSign = false /\
    X509.hasKeyUsage (X509.KeyUsage (Keyman.X509 cert)) X509.KeyUsageKeyEncipherment = true /\
    X509.hasKeyUsage (X509.KeyUsage (Keyman.X509 cert)) X509.KeyUsageDigitalSignature = true /\
    0 <= X509.SerialNumber (Keyman.X509 cert) < 1000000000 /\
    X509.CommonName (Keyman.X509 cert) = "203.0.113.7" /\
    X509.NotAfter (Keyman.X509 cert) = ONE_YEAR_FROM_TODAY sampleEnv /\
    Keyman.SignedWith cert = sampleKey.
Proof.
  exact (certificateFor_issuer_decides sampleEnv keyLoaded sampleKey "203.0.113.7"
           (ONE_YEAR_FROM_TODAY sampleEnv) true (Some (rootUntil inTenYears))
           eq_refl eq_refl).
Defined.

(** A self-signed certificate asked for with [isCA] unset is a CA all the
    same, without certificate signing. *)
Example certificateFor_self_signed_is_CA :
  exists cert s',
    certificateFor sampleEnv "flashlight-test" (ONE_YEAR_FROM_TODAY sampleEnv) false
                   None keyLoaded
      = Returned (Some cert, None) s' /\
    X509.IsCA (Keyman.X509 cert) = true /\
    X509.hasKeyUsage (X509.KeyUsage (Keyman.X509 cert)) X509.KeyUsageCertSign = false.
Proof. eexists _, _. split; [vm_compute; reflexivity|]. split; reflexivity. Qed.


Lemma initCommonCerts_success_persists_witness :
  exists key cert,
    pk (stateOf (initCommonCerts sampleEnv firstRun)) = Some key /\
    caCert (stateOf (initCommonCerts sampleEnv firstRun)) = Some cert /\
    files (stateOf (initCommonCerts sampleEnv firstRun)) !! PK_FILE sampleEnv
      = Some (PrivateKeyPEM key) /\
    files (stateOf (initCommonCerts sampleEnv firstRun)) !! CA_CERT_FILE sampleEnv
      = Some (CertificatePEM cert) /\
    serverCert (stateOf (initCommonCerts sampleEnv firstRun)) = serverCert firstRun.
Proof.
  exact (initCommonCerts_success_persists sampleEnv firstRun
           (stateOf (initCommonCerts sampleEnv firstRun))
           ltac:(vm_compute; reflexivity)).
Defined.

Lemma initCommonCerts_reuses_persisted_witness :
  exists s',
    initCommonCerts sampleEnv secondRun = Returned None s' /\
    pk s' = Some sampleKey /\ caCert s' = Some (rootUntil inTenYears) /\
    files s' = files secondRun /\ serverCert s' = serverCert secondRun.
Proof.
  exact (initCommonCerts_reuses_persisted sampleEnv secondRun sampleKey
           (rootUntil inTenYears)
           ltac:(vm_compute; reflexivity) ltac:(vm_compute; reflexivity)
           ltac:(vm_compute; reflexivity)).
Defined.

Lemma initCommonCerts_next_run_loads_the_same_witness :
  exists s2,
    initCommonCerts sampleEnv (initialState (files firstRunDone) []) = Returned None s2 /\
    pk s2 = pk firstRunDone /\ caCert s2 = caCert firstRunDone /\
    files s2 = files firstRunDone.
Proof.
  exact (initCommonCerts_next_run_loads_the_same sampleEnv sampleEnv firstRun
           firstRunDone firstRunRoot []
           ltac:(vm_compute; reflexivity) eq_refl
           ltac:(vm_compute; reflexivity) ltac:(vm_compute; reflexivity)).
Defined.

Lemma initCommonCerts_never_overwrites_witness :
  let s' := stateOf (initCommonCerts sampleEnv expiringRootRun) in
  files s' !! "cacert.pem" = Some (CertificatePEM (rootUntil inTenDays)) /\
  (forall other, other <> PK_FILE sampleEnv -> other <> CA_CERT_FILE sampleEnv ->
                 files s' !! other = files expiringRootRun !! other) /\
  serverCert s' = serverCert expiringRootRun.
Proof.
  exact (initCommonCerts_never_overwrites sampleEnv expiringRootRun "cacert.pem"
           (CertificatePEM (rootUntil inTenDays)) ltac:(vm_compute; reflexivity)).
Defined.

Lemma initCommonCerts_unreadable_key_is_error_witness :
  exists s',
    initCommonCerts sampleEnv unreadableKeyRun =
      Returned (Some (Errorf "Unable to read private key, even though it exists"
                             (ExternalError "permission denied"))) s' /\
    pk s' = None /\ caCert s' = caCert unreadableKeyRun /\
    files s' = files unreadableKeyRun /\
    trustStore s' = trustStore unreadableKeyRun /\ trace s' = trace unreadableKeyRun /\
    ticks s' = ticks unreadableKeyRun.
Proof.
  exact (initCommonCerts_unreadable_key_is_error sampleEnv unreadableKeyRun
           "permission denied" ltac:(vm_compute; reflexivity)).
Defined.

Lemma initServerCert_issues_leaf_witness :
  exists cert s',
    initServerCert sampleEnv "203.0.113.7" serverFirstRun = Returned None s' /\
    serverCert s' = Some cert /\
    X509.CommonName (Keyman.X509 cert) = "203.0.113.7" /\
    Keyman.IssuerName cert = X509.CommonName (Keyman.X509 (rootUntil inTenYears)) /\
    Keyman.SelfSigned cert = false /\
    Keyman.SignedWith cert = sampleKey /\
    X509.IsCA (Keyman.X509 cert) = false /\
    X509.hasKeyUsage (X509.KeyUsage (Keyman.X509 cert)) X509.KeyUsageCertSign = false /\
    X509.NotAfter (Keyman.X509 cert) = ONE_YEAR_FROM_TODAY sampleEnv /\
    files s' = <[SERVER_CERT_FILE sampleEnv := CertificatePEM cert]> (files serverFirstRun) /\
    pk s' = Some sampleKey /\ caCert s' = Some (rootUntil inTenYears).
Proof.
  exact (initServerCert_issues_leaf sampleEnv "203.0.113.7" serverFirstRun
           (rootUntil inTenYears) sampleKey
           ltac:(vm_compute; reflexivity) eq_refl eq_refl eq_refl eq_refl).
Defined.

(** After [initCommonCerts], the server certificate that expired a year ago
    is kept. *)
Lemma initServerCert_after_initCommonCerts_keeps_witness :
  exists s2,
    initServerCert sampleEnv "203.0.113.7" expiredLeafLoaded = Returned None s2 /\
    serverCert s2 = Some (leafUntil lastYear) /\ files s2 = files expiredLeafLoaded.
Proof.
  exact (initServerCert_after_initCommonCerts_keeps sampleEnv "203.0.113.7"
           expiredLeafStart expiredLeafLoaded (leafUntil lastYear)
           ltac:(vm_compute; reflexivity) ltac:(vm_compute; discriminate)
           ltac:(vm_compute; reflexivity)).
Defined.

Lemma installCACertToTrustStoreIfNecessary_twice_witness :
  exists s1 s2,
    installCACertToTrustStoreIfNecessary sampleEnv serverFirstRun = Returned None s1 /\
    installCACertToTrustStoreIfNecessary sampleEnv s1 = Returned None s2 /\
    (isDownstream sampleEnv || install (flags sampleEnv) = true ->
     existsb (sameCommonName (rootUntil inTenYears)) (trustStore s1) = true) /\
    trustStore s2 = trustStore s1 /\
    addCalls (trace s2) = addCalls (trace s1).
Proof.
  exact (installCACertToTrustStoreIfNecessary_twice sampleEnv serverFirstRun
           (rootUntil inTenYears) eq_refl eq_refl eq_refl).
Defined.

Lemma installCACertToTrustStoreIfNecessary_check_fails_witness :
  exists s',
    installCACertToTrustStoreIfNecessary
      (envWithTrustStore (Some (ExternalError "keychain locked")) None) serverFirstRun =
      Returned (Some (Errorf "Unable to check if certificate is installed"
                             (ExternalError "keychain locked"))) s' /\
    trace s' = trace serverFirstRun ++ [CallIsInstalled (rootUntil inTenYears)] /\
    trustStore s' = trustStore serverFirstRun.
Proof.
  exact (installCACertToTrustStoreIfNecessary_check_fails
           (envWithTrustStore (Some (ExternalError "keychain locked")) None)
           serverFirstRun (rootUntil inTenYears) (ExternalError "keychain locked")
           eq_refl ltac:(vm_compute; reflexivity) eq_refl).
Defined.

(** An address with brackets keeps only what precedes its first colon. *)
Example handleInfoRequest_bracketed_address :
  exists resp',
    handleInfoRequest freshWriter
      {| Http.Method := "GET";
         Http.Request_URL := Http.Request_URL infoRequest;
         Http.Request_Header := {[ "X-Lantern-Request-Info" := ["1"] ]};
         Http.Host := "proxy.example.org";
         Http.RemoteAddr := "[2001:db8::1]:51234";
         Http.RequestURI := "/" |} firstRun = Returned resp' firstRun /\
    Http.Writer_Header resp' !! "X-Lantern-Public-Ip" = Some ["[2001"].
Proof. eexists. split; vm_compute; reflexivity. Qed.

(** A host without a port gets port 443; a host with a colon is kept. *)
Example hostIncludingPort_samples :
  hostIncludingPort (requestTo "CONNECT" "example.com" ∅) = "example.com:443" /\
  hostIncludingPort (requestTo "CONNECT" "example.com:8443" ∅) = "example.com:8443" /\
  hostIncludingPort (requestTo "CONNECT" "[::1]" ∅) = "[::1]".
Proof. repeat split; reflexivity. Qed.

Lemma handleServer_forwards_rewritten_witness :
  let s' := stateOf (handleServer sampleEnv freshWriter remoteRequest firstRun) in
  rewriteRequestCalls (trace s') =
    rewriteRequestCalls (trace firstRun) ++
    [CallRewriteRequest ServerSide remoteRequest] /\
  transportCalls (trace s') =
    transportCalls (trace firstRun) ++
    [CallTransport ServerSide
       (RewriteRequest (serverProtocol sampleEnv) remoteRequest)].
Proof.
  exact (handleServer_forwards_rewritten sampleEnv freshWriter
           remoteRequest firstRun ltac:(vm_compute; reflexivity)).
Defined.


Lemma withDumpHeaders_keeps_result_witness :
  match Proxy.RoundTrip okExchange
          (Proxy.withDumpHeaders true (Proxy.HttpTransport true Proxy.DialEnproxyConn))
          remoteRequest with
  | Proxy.TripReturned resp' err' _ => resp' = Some okResponse /\ err' = None
  | Proxy.TripPanicked _ => true = true /\ Some okResponse = None /\ @None error = None
  end /\
  (true = false ->
   Proxy.withDumpHeaders true (Proxy.HttpTransport true Proxy.DialEnproxyConn)
   = Proxy.HttpTransport true Proxy.DialEnproxyConn).
Proof.
  exact (withDumpHeaders_keeps_result okExchange true
           (Proxy.HttpTransport true Proxy.DialEnproxyConn)
           remoteRequest (Some okResponse) None [] eq_refl).
Defined.

(** The caller at [2001:db8::1] is told [[2001]. *)
Lemma handleServer_info_request_truncates_IPv6_caller_witness :
  exists resp' value,
    handleServer sampleEnv freshWriter ipv6InfoRequest firstRun = Returned resp' firstRun /\
    Http.status resp' = 200 /\
    Http.written resp' = Http.written freshWriter /\
    Http.Header_Get (Http.sentHeader resp') X_LANTERN_PUBLIC_IP = value /\
    value <> "2001:db8::1" /\
    GoStrings.Contains value ":" = false /\
    exists group, value = String "[" group.
Proof.
  exact (handleServer_info_request_truncates_IPv6_caller sampleEnv freshWriter
           ipv6InfoRequest firstRun "2001:db8::1" "51234"
           ltac:(vm_compute; discriminate) ltac:(vm_compute; reflexivity)
           eq_refl eq_refl eq_refl).
Defined.

Example handleServer_info_request_IPv6_value :
  exists resp',
    handleServer sampleEnv freshWriter ipv6InfoRequest firstRun = Returned resp' firstRun /\
    Http.Header_Get (Http.sentHeader resp') X_LANTERN_PUBLIC_IP = "[2001".
Proof. eexists. split; vm_compute; reflexivity. Qed.
